(** * TodoAppPy: the Pomodoro timer of [core/pomodoro.py]

    A shallow embedding of [PomodoroTimer] and of the part of
    [core/database.py] it writes to, followed by the properties of the
    timer engine.

    The timer is a concurrent object: [start] launches [_run_timer] in a
    thread of its own, and [pause], [resume], [cancel] and [is_running] are
    called from the controlling thread while it runs.  The embedding keeps
    that structure.  A [world] holds the attributes of the timer object, the
    lock [self._lock], the frames of the engine threads launched so far, the
    [sessions] table, the wall clock and the terminal.  An engine thread
    advances one statement of [_run_timer] at a time; the program points are
    named after the line numbers of [core/pomodoro.py].  A method that takes
    [self._lock] for its whole body runs as one step, enabled when the lock
    is free.  An execution is a list of [event]s, a schedule, run by [run]. *)

From Stdlib Require Import ZArith List Bool Lia.
From stdpp Require Import base option list.

Local Open Scope Z_scope.

(** ** Data *)

Definition DEFAULT_WORK_MIN : Z := 25.
Definition DEFAULT_BREAK_MIN : Z := 5.

(** The two values of [session_type]: the strings ["trabajo"] (work) and
    ["descanso"] (break). *)
Inductive SessionType := trabajo | descanso.

Definition SessionType_eqb (a b : SessionType) : bool :=
  match a, b with
  | trabajo, trabajo | descanso, descanso => true
  | _, _ => false
  end.

(** [datetime.now().isoformat()]: a reading of the wall clock. *)
Definition timestamp := nat.

(** A row of the table [sessions] of [core/database.py], without its key;
    the column [end_time] is nullable. *)
Record Session := mkSession {
  row_task_id : Z;
  row_start_time : timestamp;
  row_end_time : option timestamp;
  row_duration_minutes : Z;
  row_type : SessionType
}.

(** The attributes of a [PomodoroTimer] ([self._lock] is kept in the
    [world]). *)
Record PomodoroTimer := mkTimer {
  task_id : Z;
  work_seconds : Z;
  break_seconds : Z;
  _timer_thread : option nat;
  _is_running : bool;
  _is_paused : bool;
  _remaining_time : Z;
  _session_type : SessionType;
  _start_time : option timestamp;
  _session_id : option nat
}.

(** [PomodoroTimer.__init__]. *)
Definition PomodoroTimer_init (task work_min break_min : Z) : PomodoroTimer :=
  {| task_id := task;
     work_seconds := work_min * 60;
     break_seconds := break_min * 60;
     _timer_thread := None;
     _is_running := false;
     _is_paused := false;
     _remaining_time := 0;
     _session_type := trabajo;
     _start_time := None;
     _session_id := None |}.

(** [PomodoroTimer(task_id)], with the default durations. *)
Definition PomodoroTimer_default (task : Z) : PomodoroTimer :=
  PomodoroTimer_init task DEFAULT_WORK_MIN DEFAULT_BREAK_MIN.

Definition set_timer_thread (v : option nat) (t : PomodoroTimer) : PomodoroTimer :=
  mkTimer (task_id t) (work_seconds t) (break_seconds t) v (_is_running t)
    (_is_paused t) (_remaining_time t) (_session_type t) (_start_time t)
    (_session_id t).
Definition set_is_running (v : bool) (t : PomodoroTimer) : PomodoroTimer :=
  mkTimer (task_id t) (work_seconds t) (break_seconds t) (_timer_thread t) v
    (_is_paused t) (_remaining_time t) (_session_type t) (_start_time t)
    (_session_id t).
Definition set_is_paused (v : bool) (t : PomodoroTimer) : PomodoroTimer :=
  mkTimer (task_id t) (work_seconds t) (break_seconds t) (_timer_thread t)
    (_is_running t) v (_remaining_time t) (_session_type t) (_start_time t)
    (_session_id t).
Definition set_remaining_time (v : Z) (t : PomodoroTimer) : PomodoroTimer :=
  mkTimer (task_id t) (work_seconds t) (break_seconds t) (_timer_thread t)
    (_is_running t) (_is_paused t) v (_session_type t) (_start_time t)
    (_session_id t).
Definition set_session_type (v : SessionType) (t : PomodoroTimer) : PomodoroTimer :=
  mkTimer (task_id t) (work_seconds t) (break_seconds t) (_timer_thread t)
    (_is_running t) (_is_paused t) (_remaining_time t) v (_start_time t)
    (_session_id t).
Definition set_start_time (v : option timestamp) (t : PomodoroTimer) : PomodoroTimer :=
  mkTimer (task_id t) (work_seconds t) (break_seconds t) (_timer_thread t)
    (_is_running t) (_is_paused t) (_remaining_time t) (_session_type t) v
    (_session_id t).
Definition set_session_id (v : option nat) (t : PomodoroTimer) : PomodoroTimer :=
  mkTimer (task_id t) (work_seconds t) (break_seconds t) (_timer_thread t)
    (_is_running t) (_is_paused t) (_remaining_time t) (_session_type t)
    (_start_time t) v.

(** What the program prints. *)
Inductive message :=
  | msg_iniciando (kind : SessionType) (task minutes : Z)
  | msg_restantes (kind : SessionType) (mins secs : Z)
  | msg_completada (kind : SessionType)
  | msg_iniciando_descanso
  | msg_cancelada (kind : SessionType)
  | msg_error_al_guardar
  | msg_pausado
  | msg_reanudado.

(** How the database answers.  [get_connection] ([os.makedirs] and
    [sqlite3.connect]) can fail, and so can the INSERT or the commit. *)
Inductive store_health := Healthy | WriteFails | ConnectFails.

(** Program points of [_run_timer]: [Ln] is "about to execute line n".
    [L77_exit] is the end of the [with self._lock] block, [Returned] a
    thread whose target has returned, [Raised] one ended by an exception. *)
Inductive pc :=
  | L63 | L64 | L65 | L66 | L67 | L69 | L74
  | L76 | L77 | L78 | L79 | L90 | L91 | L93 | L77_exit
  | L96 | L97 | L99 | L100 | L102 | L104 | L105
  | L107 | L109 | L110
  | Returned | Raised.

(** The frame of [_run_timer] in an engine thread: its program point, its
    arguments and its local [end_time]. *)
Record frame := mkFrame {
  at_ : pc;
  duration : Z;
  session_type : SessionType;
  end_time : option timestamp
}.

Definition goto (l : pc) (f : frame) : frame :=
  mkFrame l (duration f) (session_type f) (end_time f).

(** [lock] is the engine thread inside [with self._lock], if any; the
    threads are numbered in the order of their creation; [sessions] holds
    the rows in the order of their insertion. *)
Record world := mkWorld {
  self : PomodoroTimer;
  lock : option nat;
  threads : list frame;
  sessions : list Session;
  store : store_health;
  now : nat;
  stdout : list message
}.

Definition upd_self (f : PomodoroTimer -> PomodoroTimer) (w : world) : world :=
  mkWorld (f (self w)) (lock w) (threads w) (sessions w) (store w) (now w) (stdout w).
Definition set_lock (v : option nat) (w : world) : world :=
  mkWorld (self w) v (threads w) (sessions w) (store w) (now w) (stdout w).
Definition set_threads (v : list frame) (w : world) : world :=
  mkWorld (self w) (lock w) v (sessions w) (store w) (now w) (stdout w).
Definition set_sessions (v : list Session) (w : world) : world :=
  mkWorld (self w) (lock w) (threads w) v (store w) (now w) (stdout w).
Definition set_store (v : store_health) (w : world) : world :=
  mkWorld (self w) (lock w) (threads w) (sessions w) v (now w) (stdout w).
Definition set_now (v : nat) (w : world) : world :=
  mkWorld (self w) (lock w) (threads w) (sessions w) (store w) v (stdout w).
Definition print (m : message) (w : world) : world :=
  mkWorld (self w) (lock w) (threads w) (sessions w) (store w) (now w) (stdout w ++ [m]).

(** [if c: print(m)]. *)
Definition print_when (c : bool) (m : message) (w : world) : world :=
  mkWorld (self w) (lock w) (threads w) (sessions w) (store w) (now w)
    (if c then stdout w ++ [m] else stdout w).

(** [time.sleep(1)]: a second passes. *)
Definition sleep1 (w : world) : world := set_now (S (now w)) w.

(** Thread [tid] moves to program point [l]. *)
Definition jump (tid : nat) (f : frame) (l : pc) (w : world) : world :=
  set_threads (<[tid := goto l f]> (threads w)) w.

(** ** [_save_session]

    [get_connection()] and [conn.cursor()] are outside the [try]: an error
    there leaves the function as an exception.  The INSERT and the commit
    are inside: an error there is printed and the function returns.
    [if not end_time] holds of [None] only, a timestamp being a non-empty
    string.  [lastrowid] of the AUTOINCREMENT key is the number of rows. *)
Inductive outcome := Normal | Exception.

(** [get_connection] of [core/database.py]: [os.makedirs] and
    [sqlite3.connect]. *)
Definition get_connection (w : world) : outcome :=
  match store w with
  | ConnectFails => Exception
  | Healthy | WriteFails => Normal
  end.

(** The integers SQLite stores: 64 bits, signed.  Binding any other to a
    parameter of a statement raises [OverflowError]. *)
Definition sqlite_integer (z : Z) : bool :=
  (- 2 ^ 63 <=? z) && (z <=? 2 ^ 63 - 1).

(** [cursor.execute("INSERT INTO sessions ...")] followed by
    [conn.commit()]: the rows of the table afterwards, or [None] when one of
    the two raises.  The parameters [task_id] and [duration_minutes] are
    integers; the column [start_time] is NOT NULL. *)
Definition execute_insert (task : Z) (start_time end_time : option timestamp)
    (duration_minutes : Z) (kind : SessionType) (w : world) : option (list Session) :=
  match store w, start_time with
  | Healthy, Some st =>
      if sqlite_integer task && sqlite_integer duration_minutes
      then Some (sessions w ++ [mkSession task st end_time duration_minutes kind])
      else None
  | _, _ => None
  end.

Arguments sqlite_integer : simpl never.

Definition _save_session (duration_minutes : Z) (kind : SessionType)
    (end_time : option timestamp) (w : world) : outcome * world :=
  match get_connection w with
  | Exception => (Exception, w)
  | Normal =>
      let end_time :=
        match end_time with
        | None => now w
        | Some t => t
        end in
      match execute_insert (task_id (self w)) (_start_time (self w))
              (Some end_time) duration_minutes kind w with
      | Some rows =>
          (Normal, upd_self (set_session_id (Some (length rows))) (set_sessions rows w))
      | None => (Normal, print msg_error_al_guardar w)
      end
  end.

(** ** [_run_timer], one statement at a time *)

(** Line 81: when the remaining time is printed. *)
Definition shows_progress (remaining duration : Z) : bool :=
  (remaining mod 5 =? 0) || (remaining =? duration) || (remaining <=? 5).

Definition _run_timer_step (tid : nat) (w : world) : option world :=
  match threads w !! tid with
  | None => None
  | Some f =>
      let t := self w in
      match at_ f with
      | L63 => Some (jump tid f L64 (upd_self (set_remaining_time (duration f)) w))
      | L64 => Some (jump tid f L65 (upd_self (set_session_type (session_type f)) w))
      | L65 => Some (jump tid f L66 (upd_self (set_is_running true) w))
      | L66 => Some (jump tid f L67 (upd_self (set_is_paused false) w))
      | L67 => Some (jump tid f L69 (upd_self (set_start_time (Some (now w))) w))
      | L69 =>
          let minutes := duration f / 60 in
          Some (jump tid f L74
                  (print (msg_iniciando (session_type f) (task_id t) minutes) w))
      | L74 =>
          match _save_session (duration f / 60) (session_type f) None w with
          | (Normal, w') => Some (jump tid f L76 w')
          | (Exception, w') => Some (jump tid f Raised w')
          end
      | L76 =>
          if (0 <? _remaining_time t) && _is_running t
          then Some (jump tid f L77 w)
          else Some (jump tid f L96 w)
      | L77 =>
          match lock w with
          | None => Some (jump tid f L78 (set_lock (Some tid) w))
          | Some _ => None
          end
      | L78 =>
          if negb (_is_paused t)
          then Some (jump tid f L79 w)
          else Some (jump tid f L93 w)
      | L79 =>
          let mins := _remaining_time t / 60 in
          let secs := _remaining_time t mod 60 in
          Some (jump tid f L90
                  (print_when (shows_progress (_remaining_time t) (duration f))
                     (msg_restantes (session_type f) mins secs) w))
      | L90 => Some (jump tid f L91 (sleep1 w))
      | L91 =>
          Some (jump tid f L77_exit
                  (upd_self (set_remaining_time (_remaining_time t - 1)) w))
      | L93 => Some (jump tid f L77_exit (sleep1 w))
      | L77_exit => Some (jump tid f L76 (set_lock None w))
      | L96 =>
          if _is_running t
          then Some (jump tid f L97 w)
          else Some (jump tid f L107 w)
      | L97 =>
          Some (jump tid (mkFrame L97 (duration f) (session_type f) (Some (now w))) L99 w)
      | L99 =>
          match _save_session (duration f / 60) (session_type f) (end_time f) w with
          | (Normal, w') => Some (jump tid f L100 w')
          | (Exception, w') => Some (jump tid f Raised w')
          end
      | L100 => Some (jump tid f L102 (print (msg_completada (session_type f)) w))
      | L102 =>
          if SessionType_eqb (session_type f) trabajo
          then Some (jump tid f L104 w)
          else Some (jump tid f Returned w)
      | L104 => Some (jump tid f L105 (print msg_iniciando_descanso w))
      | L105 =>
          (* the recursive call is the last statement of the caller *)
          let callee := mkFrame L63 (break_seconds t) descanso None in
          Some (set_threads (<[tid := callee]> (threads w)) w)
      | L107 => Some (jump tid f L109 (print (msg_cancelada (session_type f)) w))
      | L109 => Some (jump tid f L110 (upd_self (set_is_running false) w))
      | L110 => Some (jump tid f Returned (upd_self (set_is_paused false) w))
      | Returned | Raised => None
      end
  end.

(** ** The public methods

    [start] and [is_running] do not take the lock.  [start] creates the
    thread with the arguments [(self.work_seconds, "trabajo")] and returns;
    it does not write [_is_running]. *)

Definition start (w : world) : bool * world :=
  if negb (_is_running (self w)) then
    let tid := length (threads w) in
    let w := upd_self (set_timer_thread (Some tid)) w in
    let target := mkFrame L63 (work_seconds (self w)) trabajo None in
    (true, set_threads (threads w ++ [target]) w)
  else (false, w).

Definition pause (w : world) : bool * world :=
  if _is_running (self w) && negb (_is_paused (self w))
  then (true, print msg_pausado (upd_self (set_is_paused true) w))
  else (false, w).

Definition resume (w : world) : bool * world :=
  if _is_running (self w) && _is_paused (self w)
  then (true, print msg_reanudado (upd_self (set_is_paused false) w))
  else (false, w).

Definition cancel (w : world) : bool * world :=
  if _is_running (self w)
  then (true, upd_self (set_is_paused false) (upd_self (set_is_running false) w))
  else (false, w).

Definition is_running (w : world) : bool := _is_running (self w).

(** ** Schedules

    What can happen next: an engine thread executes its next statement, the
    controlling thread calls a method, a second passes on the clock, the
    store changes its behaviour. *)

Inductive event :=
  | Engine (tid : nat)
  | Call_start
  | Call_pause
  | Call_resume
  | Call_cancel
  | Tick
  | Store (h : store_health).

(** A method that takes the lock waits while an engine thread holds it: it
    is not enabled then. *)
Definition locked_call (m : world -> bool * world) (w : world) : option world :=
  match lock w with
  | None => Some (snd (m w))
  | Some _ => None
  end.

Definition step (e : event) (w : world) : option world :=
  match e with
  | Engine tid => _run_timer_step tid w
  | Call_start => Some (snd (start w))
  | Call_pause => locked_call pause w
  | Call_resume => locked_call resume w
  | Call_cancel => locked_call cancel w
  | Tick => Some (sleep1 w)
  | Store h => Some (set_store h w)
  end.

Fixpoint run (es : list event) (w : world) : option world :=
  match es with
  | [] => Some w
  | e :: es =>
      match step e w with
      | Some w' => run es w'
      | None => None
      end
  end.

(** A fresh timer over an empty [sessions] table. *)
Definition boot (task work_min break_min : Z) : world :=
  {| self := PomodoroTimer_init task work_min break_min;
     lock := None;
     threads := [];
     sessions := [];
     store := Healthy;
     now := 0%nat;
     stdout := [] |}.

(** The engine thread [tid] running alone for [n] statements. *)
Definition alone (tid : nat) (n : nat) : list event := repeat (Engine tid) n.

(** ** Vocabulary of the properties *)

(** The statements inside [with self._lock]. *)
Definition holds_lock (l : pc) : bool :=
  match l with
  | L78 | L79 | L90 | L91 | L93 | L77_exit => true
  | _ => false
  end.

(** The [else] branch of line 96. *)
Definition cancelling (l : pc) : bool :=
  match l with
  | L107 | L109 | L110 => true
  | _ => false
  end.

(** The [if] branch of line 96: the completion record and the chaining. *)
Definition completing (l : pc) : bool :=
  match l with
  | L97 | L99 | L100 | L102 | L104 | L105 => true
  | _ => false
  end.

(** The chaining into the break, lines 104 and 105. *)
Definition chaining (l : pc) : bool :=
  match l with
  | L104 | L105 => true
  | _ => false
  end.

(** The phase is in progress: it has marked the timer as running (line 65)
    and line 96 has not yet decided how it ended. *)
Definition in_progress (l : pc) : bool :=
  match l with
  | L66 | L67 | L69 | L74
  | L76 | L77 | L78 | L79 | L90 | L91 | L93 | L77_exit | L96 => true
  | _ => false
  end.

(** A thread that has left [_run_timer]. *)
Definition ended (l : pc) : bool :=
  match l with
  | Returned | Raised => true
  | _ => false
  end.

(** The lines before the start record of the phase is written. *)
Definition before_start_record (l : pc) : bool :=
  match l with
  | L63 | L64 | L65 | L66 | L67 | L69 | L74 => true
  | _ => false
  end.

(** The rows of one type in the table. *)
Definition written (k : SessionType) (w : world) : nat :=
  length (List.filter (fun r => SessionType_eqb (row_type r) k) (sessions w)).

(** How many rows of its own type a phase can have written when it stands
    at [l]. *)
Definition quota (l : pc) : nat :=
  match l with
  | L63 | L64 | L65 | L66 | L67 | L69 | L74 => 0
  | L76 | L77 | L78 | L79 | L90 | L91 | L93 | L77_exit
  | L96 | L97 | L99 | L107 | L109 | L110 => 1
  | L100 | L102 | L104 | L105 | Returned | Raised => 2
  end.

(** How many statements separate a cancelled engine from the end of
    [_run_timer], at most; 12 at the lines it does not visit. *)
Definition distance (l : pc) : nat :=
  match l with
  | Returned | Raised => 0
  | L110 => 1 | L109 => 2 | L107 => 3 | L96 => 4 | L76 => 5
  | L77_exit => 6 | L91 => 7 | L93 => 7 | L90 => 8 | L79 => 9 | L78 => 10
  | L77 => 11
  | L74 => 6 | L69 => 7 | L67 => 8 | L66 => 9
  | L63 | L64 | L65 | L97 | L99 | L100 | L102 | L104 | L105 => 12
  end.

(** *** One engine thread

    What holds of every execution in which [start] has launched a single
    engine thread, whatever the controlling thread calls and however the
    store behaves. *)

(** The invariant of the world when [f] is the only engine thread. *)
Record solo (f : frame) (w : world) : Prop := {
  solo_lock : lock w = if holds_lock (at_ f) then Some 0%nat else None;
  solo_paused : _is_paused (self w) = true -> _is_running (self w) = true;
  solo_cancelling : cancelling (at_ f) = true -> _is_running (self w) = false;
  solo_quota : (written (session_type f) w <= quota (at_ f))%nat;
  solo_no_break : session_type f = trabajo -> written descanso w = 0%nat;
  solo_chaining : chaining (at_ f) = true -> session_type f = trabajo
}.

(** The timer before any [start]. *)
Record idle (w : world) : Prop := {
  idle_threads : threads w = [];
  idle_lock : lock w = None;
  idle_running : _is_running (self w) = false;
  idle_paused : _is_paused (self w) = false;
  idle_sessions : sessions w = []
}.

(** No engine thread yet, or a single one. *)
Definition at_most_one (w : world) : Prop :=
  idle w \/ exists f, threads w = [f] /\ solo f w.

(** Every event but a call of [start]. *)
Definition no_restart (e : event) : Prop :=
  match e with
  | Call_start => False
  | _ => True
  end.

(** What holds from a successful [cancel] during phase [k] onwards. *)
Record cancelled (k : SessionType) (f : frame) (w : world) : Prop := {
  cancelled_kind : session_type f = k;
  cancelled_running : _is_running (self w) = false;
  cancelled_pc : in_progress (at_ f) || cancelling (at_ f) || ended (at_ f) = true;
  cancelled_rows :
    (written k w <= if before_start_record (at_ f) then 0 else 1)%nat;
  cancelled_no_break : k = trabajo -> written descanso w = 0%nat
}.

(** *** An uncancelled chain *)

(** The events of an execution that nobody cancels or restarts and whose
    store stays healthy: the engine's statements, [pause], [resume] and the
    passing of time. *)
Definition natural (e : event) : Prop :=
  match e with
  | Engine _ | Call_pause | Call_resume | Tick => True
  | Call_start | Call_cancel | Store _ => False
  end.

(** What a row says besides its timestamps. *)
Definition shape (r : Session) : Z * SessionType * Z :=
  (row_task_id r, row_type r, row_duration_minutes r).

Definition four_records (task D B : Z) : list (Z * SessionType * Z) :=
  [(task, trabajo, D / 60); (task, trabajo, D / 60);
   (task, descanso, B / 60); (task, descanso, B / 60)].

(** The number of rows written when the chain stands at [l] of phase [k];
    [None] where an uncancelled chain never stands. *)
Definition progress (k : SessionType) (l : pc) : option nat :=
  match l with
  | L63 | L64 | L65 | L66 | L67 | L69 | L74 =>
      Some (match k with trabajo => 0 | descanso => 2 end)%nat
  | L76 | L77 | L78 | L79 | L90 | L91 | L93 | L77_exit | L96 | L97 | L99 =>
      Some (match k with trabajo => 1 | descanso => 3 end)%nat
  | L100 | L102 =>
      Some (match k with trabajo => 2 | descanso => 4 end)%nat
  | L104 | L105 =>
      match k with trabajo => Some 2%nat | descanso => None end
  | Returned =>
      match k with trabajo => None | descanso => Some 4%nat end
  | L107 | L109 | L110 | Raised => None
  end.

(** Line 65 of the work phase has been executed. *)
Definition marked (k : SessionType) (l : pc) : bool :=
  match k, l with
  | trabajo, (L63 | L64 | L65) => false
  | _, _ => true
  end.

(** Line 67 of the work phase has been executed. *)
Definition stamped (k : SessionType) (l : pc) : bool :=
  match k, l with
  | trabajo, (L63 | L64 | L65 | L66 | L67) => false
  | _, _ => true
  end.

(** The invariant of an uncancelled chain of [D] seconds of work and [B] of
    break whose only engine thread is [f]. *)
Record chain (task D B : Z) (f : frame) (w : world) : Prop := {
  chain_store : store w = Healthy;
  chain_task : task_id (self w) = task;
  chain_break : break_seconds (self w) = B;
  chain_duration :
    duration f = match session_type f with trabajo => D | descanso => B end;
  chain_running :
    marked (session_type f) (at_ f) = true -> _is_running (self w) = true;
  chain_start_time :
    stamped (session_type f) (at_ f) = true -> _start_time (self w) <> None;
  chain_rows :
    option_map (fun n => take n (four_records task D B))
      (progress (session_type f) (at_ f)) = Some (map shape (sessions w))
}.

(** The timer object during a phase that nobody interrupts. *)
Definition counting (tk ws bs : Z) (tt : option nat) (k : SessionType)
    (rem : Z) (t0 : timestamp) (sid : option nat) : PomodoroTimer :=
  mkTimer tk ws bs tt true false rem k (Some t0) sid.

(** *** The records of a chain and their times *)

(** A row was written by the time [limit]: its [end_time], which
    [_save_session] always gives, is not later. *)
Definition written_by (limit : nat) (r : Session) : Prop :=
  match row_end_time r with
  | Some e => (e <= limit)%nat
  | None => False
  end.

Definition all_written_by (limit : nat) (rows : list Session) : Prop :=
  fold_right (fun r rest => written_by limit r /\ rest) True rows.

(** The record line 74 writes when a phase of [d] seconds begins, for the
    task, of the kind and with the minutes of the phase: its [end_time] is
    the time of the write, not before its [start_time]. *)
Definition start_record (task : Z) (kind : SessionType) (d : Z) (s : Session) : Prop :=
  row_task_id s = task /\ row_type s = kind /\ row_duration_minutes s = d / 60 /\
  match row_end_time s with
  | Some e => (row_start_time s <= e)%nat
  | None => False
  end.

(** The record line 99 writes when the phase whose start record is [s] is
    complete: it has the [start_time] of [s], and its [end_time] is at least
    [d] seconds after [s] was written. *)
Definition completion_record (task : Z) (kind : SessionType) (d : Z)
    (s c : Session) : Prop :=
  row_task_id c = task /\ row_type c = kind /\ row_duration_minutes c = d / 60 /\
  row_start_time c = row_start_time s /\
  match row_end_time s, row_end_time c with
  | Some e1, Some e2 => (e1 <= e2)%nat /\ Z.of_nat e1 + d <= Z.of_nat e2
  | _, _ => False
  end.

(** The phase of the start record [s] begins when the record [c] has been
    written. *)
Definition follows (c s : Session) : Prop := written_by (row_start_time s) c.

(** The rows of the table during and after a chain of [D] seconds of work
    and [B] seconds of break. *)
Definition records_of_chain (task D B : Z) (rows : list Session) : Prop :=
  match rows with
  | [] => True
  | [s1] => start_record task trabajo D s1
  | [s1; c1] =>
      start_record task trabajo D s1 /\ completion_record task trabajo D s1 c1
  | [s1; c1; s2] =>
      start_record task trabajo D s1 /\ completion_record task trabajo D s1 c1 /\
      follows c1 s2 /\ start_record task descanso B s2
  | [s1; c1; s2; c2] =>
      start_record task trabajo D s1 /\ completion_record task trabajo D s1 c1 /\
      follows c1 s2 /\ start_record task descanso B s2 /\
      completion_record task descanso B s2 c2
  | _ => False
  end.

(** Lines 64 to 74: the remaining time is still the whole duration. *)
Definition before_loop (l : pc) : bool :=
  match l with
  | L64 | L65 | L66 | L67 | L69 | L74 => true
  | _ => false
  end.

(** Lines 69 and 74: [_start_time] is the one of this phase and its start
    record is not written yet. *)
Definition just_stamped (l : pc) : bool :=
  match l with
  | L69 | L74 => true
  | _ => false
  end.

(** Lines 76 to 99: the last row is the start record of this phase. *)
Definition halfway (l : pc) : bool :=
  match l with
  | L76 | L77 | L78 | L79 | L90 | L91 | L93 | L77_exit | L96 | L97 | L99 => true
  | _ => false
  end.

(** The seconds that have passed, at least, since the start record of the
    phase was written, when the engine stands at [l] of a phase of [d]
    seconds with [rem] remaining. *)
Definition owed (l : pc) (d rem : Z) : option Z :=
  match l with
  | L76 | L77 | L78 | L79 | L90 | L93 | L77_exit => Some (d - rem)
  | L91 => Some (d - rem + 1)
  | L96 | L97 => Some d
  | _ => None
  end.

(** The invariant of the times of an uncancelled chain. *)
Record pace (task D B : Z) (f : frame) (w : world) : Prop := {
  pace_records : records_of_chain task D B (sessions w);
  pace_clock : all_written_by (now w) (sessions w);
  pace_stamp :
    match _start_time (self w) with
    | Some t => (t <= now w)%nat
    | None => True
    end;
  pace_fresh :
    just_stamped (at_ f) = true ->
    match _start_time (self w) with
    | Some t => all_written_by t (sessions w)
    | None => True
    end;
  pace_started :
    halfway (at_ f) = true ->
    option_map row_start_time (last (sessions w)) = _start_time (self w);
  pace_full :
    before_loop (at_ f) = true -> _remaining_time (self w) = duration f;
  pace_elapsed :
    match last (sessions w), owed (at_ f) (duration f) (_remaining_time (self w)) with
    | Some s, Some b =>
        match row_end_time s with
        | Some e => Z.of_nat e + b <= Z.of_nat (now w)
        | None => False
        end
    | _, _ => True
    end;
  pace_end :
    at_ f = L99 ->
    match last (sessions w), end_time f with
    | Some s, Some e2 =>
        (e2 <= now w)%nat /\
        match row_end_time s with
        | Some e1 => (e1 <= e2)%nat /\ Z.of_nat e1 + duration f <= Z.of_nat e2
        | None => False
        end
    | _, _ => False
    end
}.

(** The invariant of the control of an uncancelled chain, whatever it
    writes: it stays marked as running, it takes neither the [else] branch
    of line 96 nor an exception, only the work phase chains and only the
    break phase returns. *)
Record flow (f : frame) (w : world) : Prop := {
  flow_store : store w = Healthy;
  flow_running :
    marked (session_type f) (at_ f) = true -> _is_running (self w) = true;
  flow_pc : cancelling (at_ f) = false /\ at_ f <> Raised;
  flow_returned : at_ f = Returned -> session_type f = descanso;
  flow_chaining : chaining (at_ f) = true -> session_type f = trabajo
}.

(** *** One engine at a time *)

(** [start()] launches no thread while an earlier one is alive: when it is
    called the timer is marked as running, so that no thread is launched,
    or every thread launched so far has left [_run_timer]. *)
Definition exclusive (e : event) (w : world) : bool :=
  match e with
  | Call_start =>
      _is_running (self w) || forallb (fun f => ended (at_ f)) (threads w)
  | _ => true
  end.

(** That holds of every [start()] of the schedule. *)
Fixpoint one_at_a_time (s : list event) (w : world) : bool :=
  match s with
  | [] => true
  | e :: s' =>
      exclusive e w &&
      match step e w with
      | Some w' => one_at_a_time s' w'
      | None => true
      end
  end.

(** The invariant of such executions: the threads but the last have ended,
    and the last is not in the [else] branch of line 96 unless the timer is
    not running. *)
Record orderly (w : world) : Prop := {
  orderly_paused : _is_paused (self w) = true -> _is_running (self w) = true;
  orderly_threads :
    threads w = [] \/
    exists earlier f,
      threads w = earlier ++ [f] /\
      Forall (fun f' => ended (at_ f') = true) earlier /\
      (cancelling (at_ f) = true -> _is_running (self w) = false)
}.

(** *** Failures of the store *)

(** A failure of the store at a call of [_save_session] (line 74 or 99) is
    contained when the engine prints the error and goes on to the next
    statement with the timer unchanged. *)
Definition save_failure_contained (h : store_health) : Prop :=
  forall (w : world) (tid : nat) (f : frame),
    threads w !! tid = Some f -> store w = h ->
    at_ f = L74 \/ at_ f = L99 ->
    _run_timer_step tid w =
    Some (jump tid f (match at_ f with L74 => L76 | _ => L100 end)
            (print msg_error_al_guardar w)).

(** *** Executions of the timer for task 7 with one minute of work and one
    of break *)

(** The statements of a whole work and break chain that nothing interrupts:
    7 to enter each phase, 7 per second of countdown, 8 from the end of the
    work countdown into the break and 6 from the end of the break countdown
    to the return. *)
Definition full_chain_1_1 : list event :=
  Call_start :: alone 0 (7 + 7 * 60 + 8 + (7 + 7 * 60 + 6)).

(** A first engine thread is cancelled during its countdown and takes the
    [else] branch of line 96; [start()] launches a second thread, which
    reaches its countdown; [pause()] succeeds; then the first thread
    executes line 109. *)
Definition restart_race : list event :=
  Call_start :: alone 0 7 ++          (* thread 0: lines 63 to 74 *)
  Call_cancel ::                      (* returns true *)
  alone 0 3 ++                        (* thread 0: lines 76, 96, 107 *)
  Call_start ::                       (* returns true: thread 1 *)
  alone 1 7 ++                        (* thread 1: lines 63 to 74 *)
  Call_pause ::                       (* returns true *)
  alone 0 1.                          (* thread 0: line 109 *)

(** The engine completes the work phase, enters [_run_timer] for the break
    and executes its line 63; [cancel()] comes then, and the engine runs to
    its return. *)
Definition lost_cancel_before : list event :=
  Call_start :: alone 0 (7 + 7 * 60 + 8 + 1).
Definition lost_cancel_after : list event :=
  Call_cancel :: alone 0 (6 + 7 * 60 + 6).

(** The engine has passed the test of line 76 and is about to take the
    lock; [cancel()] and then [start()] come; the second thread executes
    lines 63 to 65; the first thread goes on alone. *)
Definition revived_before : list event :=
  Call_start :: alone 0 8.
Definition revived_after : list event :=
  Call_cancel :: Call_start :: alone 1 3 ++ alone 0 (6 + 7 * 59 + 8).

(** A first engine thread is cancelled during its countdown and returns;
    [start()] launches a second one, which reaches its countdown; [pause()]
    succeeds. *)
Definition restart_in_turn : list event :=
  Call_start :: alone 0 7 ++          (* thread 0: lines 63 to 74 *)
  Call_cancel ::                      (* returns true *)
  alone 0 5 ++                        (* thread 0: lines 76, 96, 107 to 110 *)
  Call_start ::                       (* returns true: thread 1 *)
  alone 1 7 ++                        (* thread 1: lines 63 to 74 *)
  [Call_pause].                       (* returns true *)

(** The world after the whole chain of the timer for task 7 with one minute
    of work and one of break. *)
Definition after_full_chain_1_1 : world :=
  Eval vm_compute in
    match run full_chain_1_1 (boot 7 1 1) with
    | Some w => w
    | None => boot 7 1 1
    end.

(** The world when the countdown of the work phase of that timer begins,
    and the one after a [cancel] there and the return of the engine. *)
Definition at_countdown_1_1 : world :=
  Eval vm_compute in
    match run (Call_start :: alone 0 7) (boot 7 1 1) with
    | Some w => w
    | None => boot 7 1 1
    end.

Definition after_cancel_1_1 : world :=
  Eval vm_compute in
    match run (Call_cancel :: alone 0 5) at_countdown_1_1 with
    | Some w => w
    | None => boot 7 1 1
    end.

(** The world that schedule leaves. *)
Definition after_restart_in_turn : world :=
  Eval vm_compute in
    match run restart_in_turn (boot 7 1 1) with
    | Some w => w
    | None => boot 7 1 1
    end.

(** ** Tactics *)

(** Case analysis on what a step tests, innermost test first. *)
Ltac break_step H :=
  repeat first
    [ match type of H with
      | context [match ?x with _ => _ end] =>
          is_var x; destruct x; simpl in H; try discriminate H
      end
    | match type of H with
      | context [match ?x with _ => _ end] =>
          lazymatch x with
          | context [match _ with _ => _ end] => fail
          | _ => idtac
          end;
          let E := fresh "E" in destruct x eqn:E; simpl in H; try discriminate H
      end ].

(** Premises that hold by computation are discharged, those that cannot
    hold are dropped. *)
Ltac use_premises :=
  repeat match goal with
  | H : ?a = ?a -> _ |- _ => specialize (H eq_refl)
  | H : true = false -> _ |- _ => clear H
  | H : false = true -> _ |- _ => clear H
  | H : trabajo = descanso -> _ |- _ => clear H
  | H : descanso = trabajo -> _ |- _ => clear H
  end.

Ltac solo_close :=
  eexists; split; [reflexivity|]; split; simpl in *;
  unfold written in *; simpl in *;
  rewrite ?List.filter_app, ?length_app; simpl;
  use_premises;
  try first [ assumption | reflexivity | discriminate | congruence | lia
            | intros; first [ reflexivity | discriminate | congruence | lia ]
            | solve [auto] ].

Ltac chain_close :=
  eexists; split; [reflexivity|]; split; simpl in *;
  use_premises;
  repeat match goal with
  | H : Some _ = Some _ |- _ => injection H as H
  end;
  rewrite ?map_app; simpl;
  repeat match goal with
  | H : _ = map shape _ |- _ => rewrite <- H; clear H
  end;
  try first [ assumption | reflexivity | discriminate | congruence
            | intros; first [ reflexivity | discriminate | congruence ] ].

Ltac rows_apart H ss :=
  repeat (let r := fresh "r" in
          destruct ss as [|r ss]; simpl in H; try discriminate H).

Ltac pace_unfold :=
  unfold records_of_chain, start_record, completion_record, follows,
    written_by, all_written_by in *; simpl in *.

Ltac pace_close :=
  eexists; split; [reflexivity|]; split; simpl in *; pace_unfold; use_premises;
  repeat match goal with
  | H : (0 <? _) = false |- _ => apply Z.ltb_ge in H
  | H : (0 <? _) = true |- _ => apply Z.ltb_lt in H
  | H : Some _ = Some _ |- _ => injection H as H
  | H : _ /\ _ |- _ => destruct H
  end;
  subst; simpl in *; intros;
  repeat match goal with
  | |- context [match ?x with _ => _ end] => is_var x; destruct x
  | H : context [match ?x with _ => _ end] |- _ => is_var x; destruct x
  end;
  simpl in *;
  try first [ exact I | tauto | reflexivity | assumption | discriminate | lia
            | repeat split; first [ reflexivity | assumption | lia ] ].

(** ** Schedules: basic facts *)

Lemma run_app (s1 s2 : list event) (w : world) :
  run (s1 ++ s2) w =
  match run s1 w with
  | Some w' => run s2 w'
  | None => None
  end.
Proof.
  revert w. induction s1 as [|e s1 IH]; intros w; simpl; [reflexivity|].
  destruct (step e w); [apply IH | reflexivity].
Qed.

Lemma alone_plus (tid : nat) (n m : nat) :
  alone tid (n + m) = alone tid n ++ alone tid m.
Proof. unfold alone. apply repeat_app. Qed.

Lemma run_alone_S (tid n : nat) (w : world) :
  run (alone tid (S n)) w =
  match _run_timer_step tid w with
  | Some w' => run (alone tid n) w'
  | None => None
  end.
Proof. reflexivity. Qed.

Lemma natural_alone (tid n : nat) : Forall natural (alone tid n).
Proof.
  induction n as [|n IH]; [constructor|]. constructor; [exact I | exact IH].
Qed.

(** An invariant kept by every step of a class of events holds along every
    schedule made of such events. *)
Lemma run_invariant (allowed : event -> Prop) (I : world -> Prop) :
  (forall e w w', allowed e -> I w -> step e w = Some w' -> I w') ->
  forall s w w', Forall allowed s -> I w -> run s w = Some w' -> I w'.
Proof.
  intros Hstep s. induction s as [|e s IH]; intros w w' Hs HI Hrun; simpl in Hrun.
  - congruence.
  - destruct (step e w) as [w1|] eqn:E; [|discriminate].
    apply Forall_cons_1 in Hs as [He Hs]. eauto.
Qed.

(** ** The methods, one call at a time *)

Lemma pause_true_iff (w : world) :
  fst (pause w) = true <-> _is_running (self w) = true /\ _is_paused (self w) = false.
Proof.
  unfold pause.
  destruct (_is_running (self w)), (_is_paused (self w)); simpl; intuition congruence.
Qed.

Lemma pause_true_effect (w : world) :
  fst (pause w) = true ->
  _is_paused (self (snd (pause w))) = true /\
  _is_running (self (snd (pause w))) = true /\
  _remaining_time (self (snd (pause w))) = _remaining_time (self w) /\
  sessions (snd (pause w)) = sessions w /\
  threads (snd (pause w)) = threads w.
Proof.
  unfold pause.
  destruct (_is_running (self w)) eqn:Er, (_is_paused (self w)) eqn:Ep; simpl;
    intuition congruence.
Qed.

Lemma pause_false_noop (w : world) :
  fst (pause w) = false -> snd (pause w) = w.
Proof.
  unfold pause.
  destruct (_is_running (self w) && negb (_is_paused (self w))); simpl;
    intros H; [discriminate | reflexivity].
Qed.

Lemma pause_before_start (task work_min break_min : Z) :
  pause (boot task work_min break_min) = (false, boot task work_min break_min).
Proof. reflexivity. Qed.

Lemma pause_while_paused (w : world) :
  _is_paused (self w) = true -> pause w = (false, w).
Proof.
  intros H. unfold pause. rewrite H, andb_false_r. reflexivity.
Qed.

Lemma pause_after_cancel (w : world) :
  pause (snd (cancel w)) = (false, snd (cancel w)) \/ _is_running (self w) = false.
Proof.
  unfold cancel. destruct (_is_running (self w)) eqn:E; [left | right; reflexivity].
  reflexivity.
Qed.

Lemma cancel_twice (w : world) :
  _is_running (self w) = true ->
  fst (cancel w) = true /\ fst (cancel (snd (cancel w))) = false.
Proof. intros H. unfold cancel. rewrite H. simpl. split; reflexivity. Qed.

Lemma start_while_running (w : world) :
  _is_running (self w) = true -> start w = (false, w).
Proof. intros H. unfold start. rewrite H. reflexivity. Qed.

(** ** The race between [start] and the engine thread

    [start] launches the thread and returns; [_is_running] is set by the
    thread itself, at line 65. *)

(** C9: [start()] returns true and an [is_running()] that comes before the
    new thread has reached line 65 returns false. *)
Theorem is_running_false_right_after_start (task work_min break_min : Z) :
  let w := boot task work_min break_min in
  fst (start w) = true /\
  is_running (snd (start w)) = false /\
  threads (snd (start w)) = [mkFrame L63 (work_min * 60) trabajo None].
Proof. repeat split. Qed.

(** C8: two calls of [start()] in succession, the second before the first
    thread has reached line 65, both return true, and two engine threads
    exist afterwards. *)
Theorem start_twice_both_true (task work_min break_min : Z) :
  let w := boot task work_min break_min in
  fst (start w) = true /\
  fst (start (snd (start w))) = true /\
  threads (snd (start (snd (start w)))) =
    [mkFrame L63 (work_min * 60) trabajo None;
     mkFrame L63 (work_min * 60) trabajo None].
Proof. repeat split. Qed.

(** ** What the timer for task 7 does *)

(** C1: [start()], the engine up to the countdown, [cancel()], the engine to
    its return: one row for task 7, of type [trabajo], and its [end_time] is
    the time of the write, not NULL. *)
Theorem start_record_has_end_time :
  exists w0 w,
    run (Call_start :: alone 0 7) (boot 7 1 1) = Some w0 /\
    sessions w0 = [mkSession 7 0%nat (Some 0%nat) 1 trabajo] /\
    fst (cancel w0) = true /\
    run (Call_cancel :: alone 0 5) w0 = Some w /\
    threads w = [mkFrame Returned 60 trabajo None] /\
    sessions w = [mkSession 7 0%nat (Some 0%nat) 1 trabajo].
Proof.
  do 2 eexists.
  repeat (split; [vm_compute; reflexivity|]). vm_compute. reflexivity.
Qed.

(** The whole chain of the timer for task 7, computed. *)
Lemma run_full_chain_1_1 :
  run full_chain_1_1 (boot 7 1 1) = Some after_full_chain_1_1.
Proof. vm_compute. reflexivity. Qed.

(** C2: after the work phase and the break phase have both run to their
    end and [_run_timer] has returned, [is_running()] returns true. *)
Theorem is_running_after_full_chain :
  exists w,
    run full_chain_1_1 (boot 7 1 1) = Some w /\
    threads w = [mkFrame Returned 60 descanso (Some 120%nat)] /\
    length (sessions w) = 4%nat /\
    _remaining_time (self w) = 0 /\
    is_running w = true.
Proof. eexists. vm_compute. repeat split. Qed.

(** C6: after the whole chain has completed, [pause()] returns true and
    sets [_is_paused]. *)
Theorem pause_after_full_chain :
  exists w,
    run full_chain_1_1 (boot 7 1 1) = Some w /\
    threads w = [mkFrame Returned 60 descanso (Some 120%nat)] /\
    fst (pause w) = true /\
    _is_paused (self (snd (pause w))) = true /\
    _is_paused (self w) = false.
Proof. eexists. vm_compute. repeat split. Qed.

(** C7 as stated fails: in the world reached by [restart_race], in which
    [start()] has launched a second engine thread while the cancelled first
    one was still on its way out, [_is_paused] is true and [_is_running] is
    false. *)
Theorem paused_while_not_running :
  exists w,
    run restart_race (boot 7 1 1) = Some w /\
    _is_paused (self w) = true /\
    _is_running (self w) = false /\
    threads w = [mkFrame L110 60 trabajo None; mkFrame L76 60 trabajo None].
Proof. eexists. vm_compute. repeat split. Qed.

(** C4: [cancel()] returns true during a phase, with 60 seconds remaining,
    and the engine does not leave its loop, although [cancel()] clears
    [_is_running] in order to stop the loop of [_run_timer] (the comment at
    its line 147, and its docstring).  Two executions.

    In the first the engine has completed the work phase, has entered
    [_run_timer] for the break and has executed its line 63; the [cancel()]
    that comes then is overwritten by line 65: the break runs to its end,
    its completion record is written as the fourth row, and the timer is
    left running.

    In the second the engine is in the countdown of the work phase, between
    the test of line 76 and the lock of line 77; a [start()] follows the
    [cancel()] before the cancelled thread has tested [_is_running] again,
    and line 65 of the second thread sets the flag: the cancelled thread
    counts down to 0, writes the completion record of its work phase, the
    second row of type [trabajo], and calls [_run_timer] for the break. *)
Theorem cancel_does_not_stop_engine :
  (exists w1 w2,
      run lost_cancel_before (boot 7 1 1) = Some w1 /\
      threads w1 = [mkFrame L64 60 descanso None] /\
      _remaining_time (self w1) = 60 /\
      fst (cancel w1) = true /\
      run lost_cancel_after w1 = Some w2 /\
      threads w2 = [mkFrame Returned 60 descanso (Some 120%nat)] /\
      map shape (sessions w2) =
        [(7, trabajo, 1); (7, trabajo, 1); (7, descanso, 1); (7, descanso, 1)] /\
      is_running w2 = true) /\
  (exists w1 w2,
      run revived_before (boot 7 1 1) = Some w1 /\
      threads w1 = [mkFrame L77 60 trabajo None] /\
      _remaining_time (self w1) = 60 /\
      fst (cancel w1) = true /\
      fst (start (snd (cancel w1))) = true /\
      run revived_after w1 = Some w2 /\
      threads w2 = [mkFrame L63 60 descanso None; mkFrame L66 60 trabajo None] /\
      map shape (sessions w2) = [(7, trabajo, 1); (7, trabajo, 1)]).
Proof.
  split.
  - do 2 eexists.
    repeat (split; [vm_compute; reflexivity|]). vm_compute. reflexivity.
  - do 2 eexists.
    repeat (split; [vm_compute; reflexivity|]). vm_compute. reflexivity.
Qed.

(** ** One engine thread *)

(** Only thread 0 exists. *)
Lemma only_thread_0 (tid : nat) (w w' : world) (f : frame) :
  threads w = [f] -> _run_timer_step tid w = Some w' -> tid = 0%nat.
Proof.
  intros Hth H. unfold _run_timer_step in H. rewrite Hth in H.
  destruct tid as [|tid]; [reflexivity|]. simpl in H. destruct tid; discriminate.
Qed.

(** Every event but a [start()] keeps the invariant of the single engine
    thread. *)
Lemma solo_step (e : event) (w w' : world) (f : frame) :
  no_restart e -> threads w = [f] -> solo f w -> step e w = Some w' ->
  exists f', threads w' = [f'] /\ solo f' w'.
Proof.
  intros He Hth [Hl Hp Hc Hq Hb Hn] Hs.
  destruct w as [t lk ths ss h n out]; simpl in *; subst ths.
  destruct f as [l d k e0]; simpl in *.
  destruct t as [tk ws bs tt r p rem sty st sid]; simpl in *.
  destruct e; simpl in He; try contradiction.
  - assert (tid = 0%nat) by (eapply only_thread_0; [|exact Hs]; reflexivity).
    subst tid. unfold step, _run_timer_step in Hs; simpl in Hs.
    destruct l, k, r, p; simpl in Hs; try discriminate Hs;
      unfold _save_session, get_connection, execute_insert in Hs; simpl in Hs;
      break_step Hs; injection Hs as <-; solo_close.
  - unfold step, locked_call, pause in Hs; simpl in Hs.
    destruct r, p; break_step Hs; injection Hs as <-; solo_close.
  - unfold step, locked_call, resume in Hs; simpl in Hs.
    destruct r, p; break_step Hs; injection Hs as <-; solo_close.
  - unfold step, locked_call, cancel in Hs; simpl in Hs.
    destruct r, p; break_step Hs; injection Hs as <-; solo_close.
  - injection Hs as <-; solo_close.
  - injection Hs as <-; solo_close.
Qed.

Lemma boot_idle (task work_min break_min : Z) : idle (boot task work_min break_min).
Proof. split; reflexivity. Qed.

Lemma start_idle (w : world) :
  idle w -> fst (start w) = true /\
  threads (snd (start w)) = [mkFrame L63 (work_seconds (self w)) trabajo None] /\
  solo (mkFrame L63 (work_seconds (self w)) trabajo None) (snd (start w)).
Proof.
  intros [Ht Hl Hr Hp Hs]. unfold start. rewrite Hr. simpl. rewrite Ht.
  repeat split; simpl; unfold written; simpl; rewrite ?Hs; auto; congruence.
Qed.

(** Threads are never removed from the world. *)
Lemma step_threads_grow (e : event) (w w' : world) :
  step e w = Some w' -> (length (threads w) <= length (threads w'))%nat.
Proof.
  intros Hs. destruct e; simpl in Hs.
  - unfold _run_timer_step in Hs.
    destruct (threads w !! tid) as [f|] eqn:Ef; [|discriminate].
    destruct (at_ f); try discriminate Hs;
      unfold _save_session, get_connection, execute_insert in Hs;
      break_step Hs; injection Hs as <-; simpl; rewrite ?length_insert; lia.
  - injection Hs as <-. unfold start. destruct (negb _); simpl; rewrite ?length_app; lia.
  - unfold locked_call, pause in Hs. break_step Hs; injection Hs as <-; simpl; lia.
  - unfold locked_call, resume in Hs. break_step Hs; injection Hs as <-; simpl; lia.
  - unfold locked_call, cancel in Hs. break_step Hs; injection Hs as <-; simpl; lia.
  - injection Hs as <-. simpl. lia.
  - injection Hs as <-. simpl. lia.
Qed.

Lemma run_threads_grow (s : list event) (w w' : world) :
  run s w = Some w' -> (length (threads w) <= length (threads w'))%nat.
Proof.
  revert w. induction s as [|e s IH]; intros w H; simpl in H.
  - injection H as <-. lia.
  - destruct (step e w) as [w1|] eqn:E; [|discriminate].
    apply step_threads_grow in E. apply IH in H. lia.
Qed.

(** Up to the moment a second engine thread is launched, the world is idle
    or satisfies the invariant of its single thread. *)
Lemma at_most_one_step (e : event) (w w' : world) :
  step e w = Some w' -> (length (threads w') <= 1)%nat ->
  at_most_one w -> at_most_one w'.
Proof.
  intros Hs Hlen [Hi | (f & Hth & Hsolo)].
  - destruct e.
    + simpl in Hs. unfold _run_timer_step in Hs. rewrite (idle_threads _ Hi) in Hs.
      discriminate.
    + injection Hs as <-. right. destruct (start_idle _ Hi) as (_ & ? & ?). eauto.
    + left. destruct Hi as [Ht Hl Hr Hp Hss].
      simpl in Hs. unfold locked_call, pause in Hs. rewrite Hl, Hr in Hs.
      injection Hs as <-. split; assumption.
    + left. destruct Hi as [Ht Hl Hr Hp Hss].
      simpl in Hs. unfold locked_call, resume in Hs. rewrite Hl, Hr in Hs.
      injection Hs as <-. split; assumption.
    + left. destruct Hi as [Ht Hl Hr Hp Hss].
      simpl in Hs. unfold locked_call, cancel in Hs. rewrite Hl, Hr in Hs.
      injection Hs as <-. split; assumption.
    + injection Hs as <-. left. destruct Hi. split; assumption.
    + injection Hs as <-. left. destruct Hi. split; assumption.
  - right. destruct e;
      try (match type of Hs with step ?e _ = _ =>
             apply (solo_step e w w' f I Hth Hsolo Hs) end).
    simpl in Hs. injection Hs as <-. unfold start in *.
    destruct (negb (_is_running (self w))); simpl in *.
    + rewrite Hth in Hlen. simpl in Hlen. lia.
    + eauto.
Qed.

Lemma run_at_most_one (s : list event) (w w' : world) :
  run s w = Some w' -> (length (threads w') <= 1)%nat ->
  at_most_one w -> at_most_one w'.
Proof.
  revert w. induction s as [|e s IH]; intros w H Hlen Hw; simpl in H.
  - injection H as <-. assumption.
  - destruct (step e w) as [w1|] eqn:E; [|discriminate].
    apply (IH w1 H Hlen). eapply at_most_one_step; [exact E | | exact Hw].
    apply run_threads_grow in H. lia.
Qed.

(** ** One engine at a time *)

(** What a statement of an engine thread does to the flags: the thread has
    not ended, only its frame changes, and the two facts about the flags
    are kept. *)
Lemma engine_step_flags (tid : nat) (w w' : world) :
  _run_timer_step tid w = Some w' ->
  exists f f',
    threads w !! tid = Some f /\
    threads w' = <[tid := f']> (threads w) /\
    ended (at_ f) = false /\
    ((_is_paused (self w) = true -> _is_running (self w) = true) ->
     (cancelling (at_ f) = true -> _is_running (self w) = false) ->
     (_is_paused (self w') = true -> _is_running (self w') = true) /\
     (cancelling (at_ f') = true -> _is_running (self w') = false)).
Proof.
  intros Hs. unfold _run_timer_step in Hs.
  destruct (threads w !! tid) as [f|] eqn:Hf; [|discriminate].
  exists f.
  destruct w as [t lk ths ss h n out]; simpl in *.
  destruct f as [l d k e0]; simpl in *.
  destruct t as [tk ws bs tt r p rem sty st sid]; simpl in *.
  destruct l; try discriminate Hs;
    unfold _save_session, get_connection, execute_insert in Hs; simpl in Hs;
    break_step Hs; injection Hs as <-;
    (eexists; split; [reflexivity|]; split; [reflexivity|]; split; [reflexivity|]);
    simpl; intros H1 H2;
    repeat match goal with
    | b : bool |- _ => destruct b
    end;
    simpl in *; use_premises;
    split; intros; try reflexivity; try discriminate; try congruence; auto.
Qed.

Lemma orderly_boot (task work_min break_min : Z) :
  orderly (boot task work_min break_min).
Proof. split; simpl; [discriminate | left; reflexivity]. Qed.

(** Every event keeps the invariant, a [start()] provided it launches no
    thread while another is alive. *)
Lemma orderly_step (e : event) (w w' : world) :
  exclusive e w = true -> orderly w -> step e w = Some w' -> orderly w'.
Proof.
  intros Hex [Hp Hth] Hs. destruct e; simpl in Hs.
  - destruct (engine_step_flags tid w w' Hs) as (f & f' & Hf & Hth' & Hend & Hflags).
    destruct Hth as [Hnil | (earlier & f0 & Heq & Hdone & Hc)].
    { rewrite Hnil in Hf. discriminate. }
    rewrite Heq in Hf, Hth'.
    destruct (decide (tid < length earlier)%nat) as [Hlt | Hge].
    { rewrite lookup_app_l in Hf by assumption.
      pose proof (Forall_lookup_1 _ _ _ _ Hdone Hf) as He. simpl in He. congruence. }
    rewrite lookup_app_r in Hf by lia.
    destruct (tid - length earlier)%nat as [|m] eqn:Hm; [|destruct m; discriminate].
    injection Hf as <-.
    rewrite insert_app_r_alt in Hth' by lia. rewrite Hm in Hth'. simpl in Hth'.
    destruct (Hflags Hp Hc) as [Hp' Hc'].
    split; [assumption|]. right. exists earlier, f'. auto.
  - injection Hs as <-. simpl in Hex. unfold start.
    destruct (_is_running (self w)) eqn:Hr; simpl.
    + split; rewrite ?Hr; assumption.
    + split; simpl; [rewrite Hr; assumption|]. right.
      exists (threads w). eexists. split; [reflexivity|]. split.
      * simpl in Hex. apply Forall_forall. intros f Hin.
        rewrite forallb_forall in Hex. apply Hex, list_elem_of_In, Hin.
      * discriminate.
  - unfold locked_call, pause in Hs. destruct (lock w); [discriminate|].
    destruct (_is_running (self w)) eqn:Hr, (_is_paused (self w)) eqn:Hq;
      injection Hs as <-; simpl; split; simpl; rewrite ?Hr, ?Hq; auto.
  - unfold locked_call, resume in Hs. destruct (lock w); [discriminate|].
    destruct (_is_running (self w)) eqn:Hr, (_is_paused (self w)) eqn:Hq;
      injection Hs as <-; simpl; split; simpl; rewrite ?Hr, ?Hq; auto;
      discriminate.
  - unfold locked_call, cancel in Hs. destruct (lock w); [discriminate|].
    destruct (_is_running (self w)) eqn:Hr;
      injection Hs as <-; simpl; split; simpl; rewrite ?Hr; auto; try discriminate.
    destruct Hth as [Hnil | (earlier & f0 & Heq & Hdone & Hc)]; [auto|].
    right. exists earlier, f0. auto.
  - injection Hs as <-. split; assumption.
  - injection Hs as <-. split; assumption.
Qed.

Lemma orderly_run (s : list event) (w w' : world) :
  one_at_a_time s w = true -> orderly w -> run s w = Some w' -> orderly w'.
Proof.
  revert w. induction s as [|e s IH]; intros w Hs Hw Hrun; simpl in Hs, Hrun.
  - injection Hrun as <-. assumption.
  - destruct (step e w) as [w1|] eqn:E; [|discriminate].
    apply andb_true_iff in Hs as [He Hs].
    apply (IH w1 Hs); [|assumption]. exact (orderly_step e w w1 He Hw E).
Qed.

(** C7, amended: in every state reached by a schedule of [start], [pause],
    [resume], [cancel], engine statements, clock ticks and changes of the
    store in which [start()] launches no engine thread while an earlier one
    is alive, [_is_paused] is not true while [_is_running] is false.
    A timer may be started again and again, each time after the thread
    before has left [_run_timer]. *)
Theorem paused_implies_running_one_engine_at_a_time
    (task work_min break_min : Z) (s : list event) (w : world) :
  run s (boot task work_min break_min) = Some w ->
  one_at_a_time s (boot task work_min break_min) = true ->
  _is_paused (self w) = true -> _is_running (self w) = true.
Proof.
  intros Hrun Hs.
  apply (orderly_paused w).
  exact (orderly_run s _ w Hs (orderly_boot _ _ _) Hrun).
Qed.

(** The timer for task 7 is cancelled, started again once its first thread
    has returned, and paused. *)
Lemma paused_implies_running_one_engine_at_a_time_witness :
  length (threads after_restart_in_turn) = 2%nat /\
  _is_paused (self after_restart_in_turn) = true /\
  _is_running (self after_restart_in_turn) = true.
Proof.
  split; [reflexivity|]. split; [reflexivity|].
  apply (paused_implies_running_one_engine_at_a_time 7 1 1 restart_in_turn).
  - vm_compute. reflexivity.
  - vm_compute. reflexivity.
  - reflexivity.
Defined.

(** ** Cancellation during a phase *)

(** Once cancelled, always cancelled, short of another [start()]. *)
Lemma cancelled_step (k : SessionType) (e : event) (w w' : world) (f : frame) :
  no_restart e -> threads w = [f] -> cancelled k f w -> step e w = Some w' ->
  exists f', threads w' = [f'] /\ cancelled k f' w'.
Proof.
  intros He Hth [Hk Hr Hpc Hq Hb] Hs.
  destruct w as [t lk ths ss h n out]; simpl in *; subst ths.
  destruct f as [l d k' e0]; simpl in *. subst k'.
  destruct t as [tk ws bs tt r p rem sty st sid]; simpl in *. subst r.
  destruct e; simpl in He; try contradiction.
  - assert (tid = 0%nat) by (eapply only_thread_0; [|exact Hs]; reflexivity).
    subst tid. unfold step, _run_timer_step in Hs; simpl in Hs.
    destruct l, k; simpl in Hs; try discriminate Hs; try discriminate Hpc;
      unfold _save_session, get_connection, execute_insert in Hs; simpl in Hs;
      break_step Hs; injection Hs as <-; solo_close.
  - unfold step, locked_call, pause in Hs; simpl in Hs.
    break_step Hs; injection Hs as <-; solo_close.
  - unfold step, locked_call, resume in Hs; simpl in Hs.
    break_step Hs; injection Hs as <-; solo_close.
  - unfold step, locked_call, cancel in Hs; simpl in Hs.
    break_step Hs; injection Hs as <-; solo_close.
  - injection Hs as <-; solo_close.
  - injection Hs as <-; solo_close.
Qed.

(** A [start()] after the cancel would launch a second thread. *)
Lemma cancelled_run (k : SessionType) (s : list event) (w w' : world) (f : frame) :
  run s w = Some w' -> (length (threads w') <= 1)%nat ->
  threads w = [f] -> cancelled k f w ->
  exists f', threads w' = [f'] /\ cancelled k f' w'.
Proof.
  revert w f. induction s as [|e s IH]; intros w f Hrun Hlen Hth Hc; simpl in Hrun.
  - injection Hrun as <-. eauto.
  - destruct (step e w) as [w1|] eqn:E; [|discriminate].
    assert (He : no_restart e).
    { destruct e; try exact I. simpl in E. injection E as <-.
      apply run_threads_grow in Hrun. unfold start in Hrun.
      rewrite (cancelled_running _ _ _ Hc) in Hrun. simpl in Hrun.
      rewrite Hth in Hrun. simpl in Hrun. lia. }
    destruct (cancelled_step k e w w1 f He Hth Hc E) as (f1 & Hth1 & Hc1).
    exact (IH w1 f1 Hrun Hlen Hth1 Hc1).
Qed.

(** A [cancel] that succeeds while the phase is in progress. *)
Lemma cancel_in_progress (w : world) (f : frame) :
  threads w = [f] -> solo f w -> in_progress (at_ f) = true ->
  fst (cancel w) = true ->
  threads (snd (cancel w)) = [f] /\ cancelled (session_type f) f (snd (cancel w)).
Proof.
  intros Hth [Hl Hp Hc Hq Hb Hn] Hpc Hcan. unfold cancel in *.
  destruct (_is_running (self w)); [|discriminate]. simpl.
  split; [assumption|]. split; simpl; auto.
  - rewrite Hpc. reflexivity.
  - unfold written in *. simpl.
    destruct (at_ f); simpl in *; try discriminate Hpc; lia.
Qed.

(** A cancelled engine can always execute its next statement, and gets
    nearer to the end of [_run_timer] by doing so. *)
Lemma cancelled_progress (k : SessionType) (w : world) (f : frame) :
  threads w = [f] -> cancelled k f w -> solo f w -> ended (at_ f) = false ->
  exists w' f', _run_timer_step 0 w = Some w' /\ threads w' = [f'] /\
    (distance (at_ f') < distance (at_ f))%nat.
Proof.
  intros Hth [Hk Hr Hpc Hq Hb] [Hl _ _ _ _ _] He.
  destruct w as [t lk ths ss h n out]; simpl in *; subst ths.
  destruct f as [l d k' e0]; simpl in *.
  destruct t as [tk ws bs tt r p rem sty st sid]; simpl in *. subst r.
  unfold _run_timer_step; simpl.
  destruct l; simpl in *; try discriminate; subst lk;
    unfold _save_session, get_connection, execute_insert; simpl;
    rewrite ?andb_false_r;
    repeat match goal with
    | |- context [match ?x with _ => _ end] =>
        lazymatch x with
        | context [match _ with _ => _ end] => fail
        | _ => destruct x
        end
    end;
    do 2 eexists; (split; [reflexivity|]); simpl; (split; [reflexivity|simpl; lia]).
Qed.

(** After the [cancel] the engine, whenever it runs, leaves [_run_timer]
    within [distance] statements. *)
Lemma cancelled_engine_leaves (k : SessionType) (m : nat) (w : world) (f : frame) :
  (distance (at_ f) <= m)%nat ->
  threads w = [f] -> cancelled k f w -> solo f w ->
  exists n w' f', (n <= m)%nat /\ run (alone 0 n) w = Some w' /\
    threads w' = [f'] /\ ended (at_ f') = true.
Proof.
  revert w f. induction m as [|m IH]; intros w f Hd Hth Hc Hs.
  - exists 0%nat, w, f. repeat split; auto.
    destruct (at_ f); simpl in Hd; try lia; reflexivity.
  - destruct (ended (at_ f)) eqn:He.
    + exists 0%nat, w, f. repeat split; auto. lia.
    + destruct (cancelled_progress k w f Hth Hc Hs He) as (w1 & f1 & Hst & Hth1 & Hlt).
      destruct (cancelled_step k (Engine 0) w w1 f I Hth Hc Hst) as (f1' & Hth1' & Hc1).
      destruct (solo_step (Engine 0) w w1 f I Hth Hs Hst) as (f1'' & Hth1'' & Hs1).
      assert (f1' = f1) by congruence. assert (f1'' = f1) by congruence. subst.
      destruct (IH w1 f1) as (n & w2 & f2 & Hn & Hrun & Hth2 & He2); auto; [lia|].
      exists (S n), w2, f2. repeat split; auto; [lia|].
      simpl. rewrite Hst. exact Hrun.
Qed.

(** What [cancel()] does stop.  [start()] has launched one engine thread
    and no other is launched; [cancel()] succeeds while a phase is in
    progress, that is
    after the phase has marked the timer as running (line 65) and before
    line 96 has decided how the phase ended.  Then, whatever is scheduled
    afterwards:
    the engine never enters the completion branch (lines 97 to 105), so it
    writes no completion record and starts no other phase; the table holds
    at most one row of the type of the cancelled phase, and no [descanso]
    row when the work phase was cancelled; the timer stays not running.
    And the engine, when it runs, has left [_run_timer] after at most
    eleven statements. *)
Theorem cancel_during_phase
    (task work_min break_min : Z) (s1 s2 : list event) (w1 w2 : world) (f1 : frame) :
  run s1 (boot task work_min break_min) = Some w1 ->
  threads w1 = [f1] -> in_progress (at_ f1) = true ->
  fst (cancel w1) = true ->
  run (Call_cancel :: s2) w1 = Some w2 ->
  (length (threads w2) <= 1)%nat ->
  (exists f2,
      threads w2 = [f2] /\
      session_type f2 = session_type f1 /\
      completing (at_ f2) = false /\
      is_running w2 = false /\
      (written (session_type f1) w2 <= 1)%nat /\
      (session_type f1 = trabajo -> written descanso w2 = 0%nat)) /\
  (exists n w3 f3,
      (n <= 11)%nat /\
      run (Call_cancel :: alone 0 n) w1 = Some w3 /\
      threads w3 = [f3] /\ ended (at_ f3) = true).
Proof.
  intros Hrun1 Hth Hpc Hcan Hrun2 Hlen.
  assert (Hsolo : solo f1 w1).
  { destruct (run_at_most_one s1 _ _ Hrun1) as [Hi | (f & Hf & Hsolo)].
    - rewrite Hth. simpl. lia.
    - left. apply boot_idle.
    - rewrite (idle_threads _ Hi) in Hth. discriminate.
    - assert (f = f1) by congruence. subst f. exact Hsolo. }
  destruct (cancel_in_progress w1 f1 Hth Hsolo Hpc Hcan) as [Hth' Hc].
  simpl in Hrun2. unfold locked_call in Hrun2 |- *.
  simpl. unfold locked_call.
  destruct (lock w1) eqn:Hlock; [discriminate|].
  assert (Hsolo' : solo f1 (snd (cancel w1))).
  { destruct (solo_step Call_cancel w1 (snd (cancel w1)) f1 I Hth Hsolo)
      as (f & Hf & Hsf).
    - simpl. unfold locked_call. rewrite Hlock. reflexivity.
    - assert (f = f1) by congruence. subst f. exact Hsf. }
  split.
  - destruct (cancelled_run _ s2 _ w2 f1 Hrun2 Hlen Hth' Hc)
      as (f2 & Hth2 & [Hk Hr Hp Hq Hb]).
    exists f2. repeat split; auto.
    + destruct (at_ f2); simpl in Hp |- *; try discriminate; reflexivity.
    + destruct (before_start_record (at_ f2)); lia.
  - apply (cancelled_engine_leaves (session_type f1) 11 (snd (cancel w1)) f1); auto.
    destruct (at_ f1); simpl in Hpc |- *; try discriminate; lia.
Qed.

(** The timer for task 7, cancelled when its first countdown begins. *)
Lemma cancel_during_phase_witness :
  (exists f2,
      threads after_cancel_1_1 = [f2] /\
      session_type f2 = trabajo /\
      completing (at_ f2) = false /\
      is_running after_cancel_1_1 = false /\
      (written trabajo after_cancel_1_1 <= 1)%nat /\
      (trabajo = trabajo -> written descanso after_cancel_1_1 = 0%nat)) /\
  (exists n w3 f3,
      (n <= 11)%nat /\
      run (Call_cancel :: alone 0 n) at_countdown_1_1 = Some w3 /\
      threads w3 = [f3] /\ ended (at_ f3) = true).
Proof.
  apply (cancel_during_phase 7 1 1 (Call_start :: alone 0 7) (alone 0 5)
           at_countdown_1_1 after_cancel_1_1 (mkFrame L76 60 trabajo None)).
  - vm_compute. reflexivity.
  - reflexivity.
  - reflexivity.
  - reflexivity.
  - vm_compute. reflexivity.
  - vm_compute. lia.
Defined.

(** ** Natural completion of the work and break chain *)

Section Chain.

(** The task and the minutes of the two phases are integers the store can
    hold. *)
Variables task D B : Z.
Hypothesis task_fits : sqlite_integer task = true.
Hypothesis work_fits : sqlite_integer (D / 60) = true.
Hypothesis break_fits : sqlite_integer (B / 60) = true.

(** The events of an uncancelled chain keep its invariant. *)
Lemma chain_step (e : event) (w w' : world) (f : frame) :
  natural e -> threads w = [f] -> chain task D B f w -> step e w = Some w' ->
  exists f', threads w' = [f'] /\ chain task D B f' w'.
Proof.
  intros He Hth [Hst Htk Hbr Hd Hr Hs0 Hrows] Hs.
  destruct w as [t lk ths ss h n out]; simpl in *; subst ths.
  destruct f as [l d k e0]; simpl in *.
  destruct t as [tk ws bs tt r p rem sty st sid]; simpl in *. subst h tk bs d.
  destruct e; simpl in He; try contradiction.
  - assert (tid = 0%nat) by (eapply only_thread_0; [|exact Hs]; reflexivity).
    subst tid. unfold step, _run_timer_step in Hs; simpl in Hs.
    destruct l, k; simpl in Hs, Hrows; try discriminate Hs; try discriminate Hrows;
      unfold _save_session, get_connection, execute_insert in Hs; simpl in Hs;
      rewrite ?task_fits, ?work_fits, ?break_fits in Hs; simpl in Hs;
      use_premises; subst;
      break_step Hs; try congruence; injection Hs as <-; chain_close.
  - unfold step, locked_call, pause in Hs; simpl in Hs.
    break_step Hs; injection Hs as <-; chain_close.
  - unfold step, locked_call, resume in Hs; simpl in Hs.
    break_step Hs; injection Hs as <-; chain_close.
  - injection Hs as <-; chain_close.
Qed.

End Chain.

(** *** The engine running alone

    With nobody else scheduled the engine goes through both phases and
    returns.  The worlds are written out so that each lemma is checked by
    computation. *)

Section Alone.

Variables (tk ws bs : Z) (tt : option nat).
Variables (d : Z) (k : SessionType).
Variable h : store_health.

Local Abbreviation counting := (counting tk ws bs tt k).

(** Line 76 when the loop goes on. *)
Lemma loop_test_true (rem : Z) (t0 : timestamp) (sid : option nat)
    (ss : list Session) (clock : nat) (out : list message)
    (e0 : option timestamp) :
  0 < rem ->
  _run_timer_step 0 (mkWorld (counting rem t0 sid) None [mkFrame L76 d k e0] ss
                   h clock out) =
  Some (mkWorld (counting rem t0 sid) None [mkFrame L77 d k e0] ss h clock out).
Proof.
  intros H. apply Z.ltb_lt in H. unfold _run_timer_step. simpl. rewrite H. reflexivity.
Qed.

(** Lines 77 to 91 and the end of the [with] block. *)
Lemma loop_body (rem : Z) (t0 : timestamp) (sid : option nat)
    (ss : list Session) (clock : nat) (out : list message)
    (e0 : option timestamp) :
  run (alone 0 6) (mkWorld (counting rem t0 sid) None [mkFrame L77 d k e0] ss
                     h clock out) =
  Some (mkWorld (counting (rem - 1) t0 sid) None [mkFrame L76 d k e0] ss h
          (S clock)
          (if shows_progress rem d
           then out ++ [msg_restantes k (rem / 60) (rem mod 60)]
           else out)).
Proof. reflexivity. Qed.

(** A second of countdown. *)
Lemma one_second (rem : Z) (t0 : timestamp) (sid : option nat)
    (ss : list Session) (clock : nat) (out : list message)
    (e0 : option timestamp) :
  0 < rem ->
  exists out',
    run (alone 0 7) (mkWorld (counting rem t0 sid) None [mkFrame L76 d k e0] ss
                       h clock out) =
    Some (mkWorld (counting (rem - 1) t0 sid) None [mkFrame L76 d k e0] ss h
            (S clock) out').
Proof.
  intros H. eexists. rewrite run_alone_S, loop_test_true by assumption.
  apply loop_body.
Qed.

(** The whole countdown. *)
Lemma countdown (n : nat) (t0 : timestamp) (sid : option nat)
    (ss : list Session) (clock : nat) (out : list message)
    (e0 : option timestamp) :
  exists clock' out',
    run (alone 0 (7 * n)) (mkWorld (counting (Z.of_nat n) t0 sid) None
                             [mkFrame L76 d k e0] ss h clock out) =
    Some (mkWorld (counting 0 t0 sid) None [mkFrame L76 d k e0] ss h
            clock' out').
Proof.
  revert clock out. induction n as [|n IH]; intros clock out.
  - exists clock, out. reflexivity.
  - destruct (one_second (Z.of_nat (S n)) t0 sid ss clock out e0) as [out1 H1]; [lia|].
    replace (Z.of_nat (S n) - 1) with (Z.of_nat n) in H1 by lia.
    destruct (IH (S clock) out1) as (clock' & out' & H2).
    exists clock', out'.
    replace (7 * S n)%nat with (7 + 7 * n)%nat by lia.
    rewrite alone_plus, run_app, H1. exact H2.
Qed.

End Alone.

Section Phase.

Variables (tk ws bs : Z) (tt : option nat).
Variables (d : Z) (k : SessionType).
Hypothesis task_fits : sqlite_integer tk = true.
Hypothesis minutes_fit : sqlite_integer (d / 60) = true.

Local Abbreviation counting := (counting tk ws bs tt k).

(** Lines 63 to 74. *)
Lemma enter_phase (r p : bool) (rem : Z) (sty : SessionType)
    (st : option timestamp) (sid : option nat) (ss : list Session)
    (clock : nat) (out : list message) (e0 : option timestamp) :
  let row := mkSession tk clock (Some clock) (d / 60) k in
  run (alone 0 7) (mkWorld (mkTimer tk ws bs tt r p rem sty st sid) None
                     [mkFrame L63 d k e0] ss Healthy clock out) =
  Some (mkWorld (counting d clock (Some (length (ss ++ [row])))) None
          [mkFrame L76 d k e0] (ss ++ [row]) Healthy clock
          (out ++ [msg_iniciando k tk (d / 60)])).
Proof.
  intros row. subst row.
  change (alone 0 7) with (alone 0 6 ++ alone 0 1). rewrite run_app.
  match goal with
  | |- context [run (alone 0 6) ?W] =>
      change (run (alone 0 6) W)
        with (Some (mkWorld (mkTimer tk ws bs tt true false d k (Some clock) sid)
                      None [mkFrame L74 d k e0] ss Healthy clock
                      (out ++ [msg_iniciando k tk (d / 60)])))
  end.
  cbn [alone repeat run step].
  unfold _run_timer_step, _save_session, get_connection, execute_insert. simpl.
  rewrite task_fits, minutes_fit. reflexivity.
Qed.

(** Line 76 when the countdown is over, line 96 and the completion record. *)
Lemma loop_exit (rem : Z) (t0 : timestamp) (sid : option nat)
    (ss : list Session) (clock : nat) (out : list message)
    (e0 : option timestamp) :
  rem <= 0 ->
  let row := mkSession tk t0 (Some clock) (d / 60) k in
  run (alone 0 5) (mkWorld (counting rem t0 sid) None [mkFrame L76 d k e0] ss
                     Healthy clock out) =
  Some (mkWorld (counting rem t0 (Some (length (ss ++ [row])))) None
          [mkFrame L102 d k (Some clock)] (ss ++ [row]) Healthy clock
          (out ++ [msg_completada k])).
Proof.
  intros H. apply Z.ltb_ge in H.
  change (alone 0 5) with (alone 0 1 ++ alone 0 2 ++ alone 0 2). rewrite run_app.
  match goal with
  | |- context [run (alone 0 1) ?W] =>
      replace (run (alone 0 1) W)
        with (Some (mkWorld (counting rem t0 sid) None [mkFrame L96 d k e0] ss
                      Healthy clock out))
        by (cbn [alone repeat run step]; unfold _run_timer_step; simpl; rewrite H;
            reflexivity)
  end.
  cbv beta iota. rewrite run_app.
  match goal with
  | |- context [run (alone 0 2) ?W] =>
      change (run (alone 0 2) W)
        with (Some (mkWorld (counting rem t0 sid) None
                      [mkFrame L99 d k (Some clock)] ss Healthy clock out))
  end.
  cbv beta iota. rewrite run_alone_S.
  unfold _run_timer_step at 1, _save_session, get_connection, execute_insert.
  simpl. rewrite task_fits, minutes_fit. reflexivity.
Qed.

(** A whole phase, from line 63 to line 102. *)
Lemma phase_alone (r p : bool) (rem0 : Z) (sty : SessionType)
    (st : option timestamp) (sid0 : option nat) (ss : list Session)
    (clock : nat) (out : list message) (e0 : option timestamp) :
  exists n rem sid ss' clock' out' t0 e',
    run (alone 0 n) (mkWorld (mkTimer tk ws bs tt r p rem0 sty st sid0) None
                       [mkFrame L63 d k e0] ss Healthy clock out) =
    Some (mkWorld (counting rem t0 sid) None [mkFrame L102 d k e'] ss' Healthy
            clock' out').
Proof.
  pose proof (enter_phase r p rem0 sty st sid0 ss clock out e0) as Henter.
  cbv zeta in Henter.
  destruct (Z_lt_le_dec 0 d) as [Hpos | Hneg].
  - destruct (countdown tk ws bs tt d k Healthy (Z.to_nat d) clock
                (Some (length (ss ++ [mkSession tk clock (Some clock) (d / 60) k])))
                (ss ++ [mkSession tk clock (Some clock) (d / 60) k]) clock
                (out ++ [msg_iniciando k tk (d / 60)]) e0)
      as (clock1 & out1 & Hcount).
    rewrite Z2Nat.id in Hcount by lia.
    exists (7 + (7 * Z.to_nat d + 5))%nat. do 7 eexists.
    rewrite alone_plus, run_app, Henter, alone_plus, run_app, Hcount.
    apply loop_exit. lia.
  - exists (7 + 5)%nat. do 7 eexists.
    rewrite alone_plus, run_app, Henter. apply loop_exit. assumption.
Qed.

End Phase.

(** Lines 102 to 105 of a completed work phase: the call for the break. *)
Lemma chain_into_break (tk ws bs : Z) (tt : option nat) (d rem : Z)
    (t0 : timestamp) (sid : option nat) (ss : list Session) (clock : nat)
    (out : list message) (e0 : option timestamp) :
  run (alone 0 3) (mkWorld (counting tk ws bs tt trabajo rem t0 sid) None
                     [mkFrame L102 d trabajo e0] ss Healthy clock out) =
  Some (mkWorld (counting tk ws bs tt trabajo rem t0 sid) None
          [mkFrame L63 bs descanso None] ss Healthy clock
          (out ++ [msg_iniciando_descanso])).
Proof. reflexivity. Qed.

(** Line 102 of a completed break: [_run_timer] returns. *)
Lemma break_returns (tk ws bs : Z) (tt : option nat) (d rem : Z)
    (t0 : timestamp) (sid : option nat) (ss : list Session) (clock : nat)
    (out : list message) (e0 : option timestamp) :
  run (alone 0 1) (mkWorld (counting tk ws bs tt descanso rem t0 sid) None
                     [mkFrame L102 d descanso e0] ss Healthy clock out) =
  Some (mkWorld (counting tk ws bs tt descanso rem t0 sid) None
          [mkFrame Returned d descanso e0] ss Healthy clock out).
Proof. reflexivity. Qed.

(** C10: a timer for a task the store can hold is made with
    [work_min = 0].  [start()] returns true and the engine, left alone, goes
    from line 76 straight to line 96, where it stands after its eighth
    statement.  After its fifteenth statement it has written the two rows of
    the work phase, has printed no countdown and slept for no second, and
    stands at the first line of [_run_timer] for the break. *)
Theorem zero_work_minutes_chains_at_once (task break_min : Z) :
  sqlite_integer task = true ->
  let w0 := boot task 0 break_min in
  fst (start w0) = true /\
  run (alone 0 8) (snd (start w0)) =
    Some {| self := mkTimer task 0 (break_min * 60) (Some 0%nat) true false 0
                      trabajo (Some 0%nat) (Some 1%nat);
            lock := None;
            threads := [mkFrame L96 0 trabajo None];
            sessions := [mkSession task 0%nat (Some 0%nat) 0 trabajo];
            store := Healthy;
            now := 0%nat;
            stdout := [msg_iniciando trabajo task 0] |} /\
  run (alone 0 15) (snd (start w0)) =
    Some {| self := mkTimer task 0 (break_min * 60) (Some 0%nat) true false 0
                      trabajo (Some 0%nat) (Some 2%nat);
            lock := None;
            threads := [mkFrame L63 (break_min * 60) descanso None];
            sessions := [mkSession task 0%nat (Some 0%nat) 0 trabajo;
                         mkSession task 0%nat (Some 0%nat) 0 trabajo];
            store := Healthy;
            now := 0%nat;
            stdout := [msg_iniciando trabajo task 0; msg_completada trabajo;
                       msg_iniciando_descanso] |}.
Proof.
  intros Htask w0. subst w0. split; [reflexivity|].
  change (snd (start (boot task 0 break_min)))
    with (mkWorld (mkTimer task 0 (break_min * 60) (Some 0%nat) false false 0
                     trabajo None None)
            None [mkFrame L63 0 trabajo None] [] Healthy 0%nat []).
  pose proof (enter_phase task 0 (break_min * 60) (Some 0%nat) 0 trabajo Htask
                eq_refl false false 0 trabajo None None [] 0%nat [] None)
    as Henter.
  pose proof (loop_exit task 0 (break_min * 60) (Some 0%nat) 0 trabajo Htask
                eq_refl 0 0%nat (Some 1%nat)
                [mkSession task 0%nat (Some 0%nat) 0 trabajo] 0%nat
                [msg_iniciando trabajo task 0] None (Z.le_refl 0))
    as Hexit.
  cbv zeta in Henter, Hexit. split.
  - change (alone 0 8) with (alone 0 7 ++ alone 0 1).
    rewrite run_app, Henter. reflexivity.
  - change (alone 0 15) with (alone 0 7 ++ alone 0 5 ++ alone 0 3).
    rewrite run_app, Henter. cbv beta iota. rewrite run_app.
    change (run (alone 0 5) ?W)
      with (run (alone 0 5)
              (mkWorld (counting task 0 (break_min * 60) (Some 0%nat) trabajo 0 0%nat
                          (Some 1%nat))
                 None [mkFrame L76 0 trabajo None]
                 [mkSession task 0%nat (Some 0%nat) 0 trabajo] Healthy 0%nat
                 [msg_iniciando trabajo task 0])).
    rewrite Hexit. reflexivity.
Qed.

(** The timer for task 7 with no work and one minute of break. *)
Lemma zero_work_minutes_chains_at_once_witness :
  run (alone 0 15) (snd (start (boot 7 0 1))) =
    Some {| self := mkTimer 7 0 (1 * 60) (Some 0%nat) true false 0
                      trabajo (Some 0%nat) (Some 2%nat);
            lock := None;
            threads := [mkFrame L63 (1 * 60) descanso None];
            sessions := [mkSession 7 0%nat (Some 0%nat) 0 trabajo;
                         mkSession 7 0%nat (Some 0%nat) 0 trabajo];
            store := Healthy;
            now := 0%nat;
            stdout := [msg_iniciando trabajo 7 0; msg_completada trabajo;
                       msg_iniciando_descanso] |}.
Proof.
  destruct (zero_work_minutes_chains_at_once 7 1 eq_refl) as (_ & _ & H).
  exact H.
Defined.

(** *** The times of an uncancelled chain *)

Lemma all_written_by_mono (n m : nat) (rows : list Session) :
  (n <= m)%nat -> all_written_by n rows -> all_written_by m rows.
Proof.
  intros Hnm. induction rows as [|r rows IH]; simpl; [trivial|].
  intros [Hr Hrest]. split; [|auto].
  unfold written_by in *. destruct (row_end_time r); [lia | assumption].
Qed.

(** A second that passes keeps the invariant of the times. *)
Lemma pace_tick (task D B : Z) (f : frame) (w : world) :
  pace task D B f w -> pace task D B f (sleep1 w).
Proof.
  intros [P1 P2 P3 P4 P5 P6 P7 P8]. split; simpl; try assumption.
  - apply (all_written_by_mono (now w)); [lia | assumption].
  - destruct (_start_time (self w)); [lia | trivial].
  - destruct (last (sessions w)) as [s|]; [|trivial].
    destruct (owed _ _ _); [|trivial].
    destruct (row_end_time s); [lia | assumption].
  - intros Hl. specialize (P8 Hl).
    destruct (last (sessions w)) as [s|]; [|assumption].
    destruct (end_time f); [|assumption].
    destruct P8 as [Hn Hs]. split; [lia | assumption].
Qed.

(** [pause()] and [resume()] do not touch what the invariant is about. *)
Lemma pace_paused (task D B : Z) (f : frame) (w : world) (p : bool) (m : message) :
  pace task D B f w -> pace task D B f (print m (upd_self (set_is_paused p) w)).
Proof. intros [P1 P2 P3 P4 P5 P6 P7 P8]. split; simpl; assumption. Qed.

Section Pace.

Variables task D B : Z.
Hypothesis task_fits : sqlite_integer task = true.
Hypothesis work_fits : sqlite_integer (D / 60) = true.
Hypothesis break_fits : sqlite_integer (B / 60) = true.

Lemma pace_step (e : event) (w w' : world) (f : frame) :
  natural e -> threads w = [f] -> chain task D B f w -> pace task D B f w ->
  step e w = Some w' ->
  exists f', threads w' = [f'] /\ pace task D B f' w'.
Proof.
  intros He Hth Hchain Hpace Hs.
  destruct e; simpl in He; try contradiction.
  - destruct Hchain as [Hst Htk Hbr Hd Hr Hs0 Hrows].
    destruct Hpace as [P1 P2 P3 P4 P5 P6 P7 P8].
    destruct w as [t lk ths ss h n out]; simpl in *; subst ths.
    destruct f as [l d k e0]; simpl in *.
    destruct t as [tk ws bs tt r p rem sty st sid]; simpl in *. subst h tk bs d.
    assert (tid = 0%nat) by (eapply only_thread_0; [|exact Hs]; reflexivity).
    subst tid. unfold step, _run_timer_step in Hs; simpl in Hs.
    destruct l, k; simpl in Hs, Hrows; try discriminate Hs; try discriminate Hrows;
      rows_apart Hrows ss; clear Hrows;
      repeat match goal with
      | r : Session |- _ =>
          destruct r as [? ? [?|] ? ?]; pace_unfold; try contradiction; try tauto
      end;
      unfold _save_session, get_connection, execute_insert in Hs; simpl in Hs;
      rewrite ?task_fits, ?work_fits, ?break_fits in Hs; simpl in Hs;
      use_premises; subst;
      break_step Hs; try congruence; injection Hs as <-; pace_close.
  - exists f. simpl in Hs. unfold locked_call, pause in Hs.
    destruct (lock w); [discriminate|].
    destruct (_ && _); injection Hs as <-; simpl; (split; [assumption|]);
      [apply pace_paused|]; assumption.
  - exists f. simpl in Hs. unfold locked_call, resume in Hs.
    destruct (lock w); [discriminate|].
    destruct (_ && _); injection Hs as <-; simpl; (split; [assumption|]);
      [apply pace_paused|]; assumption.
  - exists f. injection Hs as <-. split; [assumption|]. apply pace_tick, Hpace.
Qed.

End Pace.

Lemma minutes_fit (m : Z) :
  sqlite_integer m = true -> sqlite_integer (m * 60 / 60) = true.
Proof. intros H. rewrite Z.div_mul by lia. exact H. Qed.

(** Left alone after [start], the engine returns from the break phase. *)
Lemma engine_alone_returns (task work_min break_min : Z) :
  sqlite_integer task = true ->
  sqlite_integer work_min = true ->
  sqlite_integer break_min = true ->
  exists n w e,
    run (Call_start :: alone 0 n) (boot task work_min break_min) = Some w /\
    threads w = [mkFrame Returned (break_min * 60) descanso e].
Proof.
  intros Ht Hw Hb.
  destruct (phase_alone task (work_min * 60) (break_min * 60) (Some 0%nat)
              (work_min * 60) trabajo Ht (minutes_fit _ Hw)
              false false 0 trabajo None None [] 0%nat [] None)
    as (n1 & rem1 & sid1 & ss1 & clock1 & out1 & t1 & e1 & Hwork).
  destruct (phase_alone task (work_min * 60) (break_min * 60) (Some 0%nat)
              (break_min * 60) descanso Ht (minutes_fit _ Hb)
              true false rem1 trabajo (Some t1) sid1
              ss1 clock1 (out1 ++ [msg_iniciando_descanso]) None)
    as (n2 & rem2 & sid2 & ss2 & clock2 & out2 & t2 & e2 & Hbreak).
  exists (n1 + (3 + (n2 + 1)))%nat. do 2 eexists.
  split.
  - change (run (Call_start :: ?s) (boot task work_min break_min))
      with (run s (snd (start (boot task work_min break_min)))).
    rewrite alone_plus, run_app.
    change (snd (start (boot task work_min break_min)))
      with (mkWorld (mkTimer task (work_min * 60) (break_min * 60) (Some 0%nat) false
                       false 0 trabajo None None)
              None [mkFrame L63 (work_min * 60) trabajo None] [] Healthy 0%nat []).
    rewrite Hwork, alone_plus, run_app, chain_into_break, alone_plus, run_app.
    unfold counting in Hbreak |- *. rewrite Hbreak.
    apply (break_returns task (work_min * 60) (break_min * 60) (Some 0%nat)).
  - reflexivity.
Qed.

(** *** The records of an uncancelled chain *)

Lemma chain_after_start (task work_min break_min : Z) :
  let w := snd (start (boot task work_min break_min)) in
  threads w = [mkFrame L63 (work_min * 60) trabajo None] /\
  chain task (work_min * 60) (break_min * 60)
    (mkFrame L63 (work_min * 60) trabajo None) w /\
  pace task (work_min * 60) (break_min * 60)
    (mkFrame L63 (work_min * 60) trabajo None) w.
Proof.
  split; [reflexivity|]. split; split; simpl; try reflexivity; try discriminate;
    trivial.
Qed.

Lemma chain_run (task work_min break_min : Z) (s : list event) (w : world) :
  sqlite_integer task = true ->
  sqlite_integer work_min = true ->
  sqlite_integer break_min = true ->
  Forall natural s ->
  run (Call_start :: s) (boot task work_min break_min) = Some w ->
  exists f, threads w = [f] /\
    chain task (work_min * 60) (break_min * 60) f w /\
    pace task (work_min * 60) (break_min * 60) f w.
Proof.
  intros Ht Hw Hb Hs Hrun.
  change (run s (snd (start (boot task work_min break_min))) = Some w) in Hrun.
  destruct (chain_after_start task work_min break_min) as (Hth & Hc & Hp).
  revert Hrun.
  apply (run_invariant natural
           (fun w => exists f, threads w = [f] /\
                       chain task (work_min * 60) (break_min * 60) f w /\
                       pace task (work_min * 60) (break_min * 60) f w));
    [|assumption|eauto].
  intros e wa wb He (fa & Hfa & Hca & Hpa) Hst.
  destruct (chain_step _ _ _ Ht (minutes_fit _ Hw) (minutes_fit _ Hb)
              e wa wb fa He Hfa Hca Hst) as (fb & Hfb & Hcb).
  destruct (pace_step _ _ _ Ht (minutes_fit _ Hw) (minutes_fit _ Hb)
              e wa wb fa He Hfa Hca Hpa Hst) as (fb' & Hfb' & Hpb).
  assert (fb' = fb) by congruence. subst fb'. eauto.
Qed.

(** C3: a timer for a task and with minutes the store can hold is started,
    and then nobody cancels it or starts it again, and the store stays
    healthy; [pause], [resume] and the passing of time may come at any
    moment.  Such executions reach the return of [_run_timer].

    At every moment of such an execution the table holds the first [n] of
    the four records, [n] being given by the line the engine stands at: the
    start record of a phase is there from line 76 on, before the countdown,
    and its completion record from line 100 on, after it.  The two records
    of a phase have the task, the kind and [duration_minutes = d / 60] of
    the phase, [d] being its seconds, and the same [start_time]; the
    [end_time] of the start record is the time it was written at, and the
    [end_time] of the completion record is at least [d] seconds later.  The
    break starts when the completion record of the work has been written.

    Once [_run_timer] has returned, it has returned from the break phase and
    the table holds exactly the four.  Only the work phase reaches the
    chaining of lines 104 and 105. *)
Theorem natural_completion_four_records (task work_min break_min : Z) :
  sqlite_integer task = true ->
  sqlite_integer work_min = true ->
  sqlite_integer break_min = true ->
  let D := work_min * 60 in
  let B := break_min * 60 in
  (exists s w e,
      Forall natural s /\
      run (Call_start :: s) (boot task work_min break_min) = Some w /\
      threads w = [mkFrame Returned B descanso e]) /\
  (forall s w,
      Forall natural s ->
      run (Call_start :: s) (boot task work_min break_min) = Some w ->
      exists f n,
        threads w = [f] /\
        progress (session_type f) (at_ f) = Some n /\
        map shape (sessions w) = take n (four_records task D B) /\
        records_of_chain task D B (sessions w)) /\
  (forall s w f,
      Forall natural s ->
      run (Call_start :: s) (boot task work_min break_min) = Some w ->
      threads w = [f] -> at_ f = Returned ->
      session_type f = descanso /\
      exists s1 c1 s2 c2,
        sessions w = [s1; c1; s2; c2] /\
        start_record task trabajo D s1 /\
        completion_record task trabajo D s1 c1 /\
        follows c1 s2 /\
        start_record task descanso B s2 /\
        completion_record task descanso B s2 c2) /\
  (forall s w f,
      Forall natural s ->
      run (Call_start :: s) (boot task work_min break_min) = Some w ->
      threads w = [f] -> chaining (at_ f) = true ->
      session_type f = trabajo).
Proof.
  intros Ht Hw Hb D B. subst D B. split; [|split; [|split]].
  - destruct (engine_alone_returns task work_min break_min Ht Hw Hb)
      as (n & w & e & Hrun & Hth).
    exists (alone 0 n), w, e. split; [apply natural_alone | split; assumption].
  - intros s w Hs Hrun.
    destruct (chain_run _ _ _ _ _ Ht Hw Hb Hs Hrun)
      as (f & Hth & [_ _ _ _ _ _ Hrows] & [Hrec _ _ _ _ _ _ _]).
    destruct (progress (session_type f) (at_ f)) as [n|] eqn:Hn; [|discriminate].
    exists f, n. cbn [option_map] in Hrows.
    split; [assumption|]. split; [exact Hn|]. split; [congruence | assumption].
  - intros s w f Hs Hrun Hth Hret.
    destruct (chain_run _ _ _ _ _ Ht Hw Hb Hs Hrun)
      as (f' & Hth' & [_ _ _ _ _ _ Hrows] & [Hrec _ _ _ _ _ _ _]).
    assert (f' = f) by congruence. subst f'.
    rewrite Hret in Hrows. destruct (session_type f); [discriminate|].
    cbn [option_map progress] in Hrows. split; [reflexivity|].
    injection Hrows as Hrows.
    destruct (sessions w) as [|s1 [|c1 [|s2 [|c2 [|r5 rest]]]]];
      try discriminate Hrows.
    exists s1, c1, s2, c2. split; [reflexivity|]. exact Hrec.
  - intros s w f Hs Hrun Hth Hch.
    destruct (chain_run _ _ _ _ _ Ht Hw Hb Hs Hrun)
      as (f' & Hth' & [_ _ _ _ _ _ Hrows] & _).
    assert (f' = f) by congruence. subst f'.
    destruct (session_type f); [reflexivity|].
    destruct (at_ f); simpl in Hch; try discriminate Hch; discriminate Hrows.
Qed.

(** The four records of the timer for task 7: the work starts at 0 and is
    complete at 60, the break starts at 60 and is complete at 120. *)
Lemma natural_completion_four_records_witness :
  exists s1 c1 s2 c2,
    sessions after_full_chain_1_1 = [s1; c1; s2; c2] /\
    start_record 7 trabajo (1 * 60) s1 /\
    completion_record 7 trabajo (1 * 60) s1 c1 /\
    follows c1 s2 /\
    start_record 7 descanso (1 * 60) s2 /\
    completion_record 7 descanso (1 * 60) s2 c2.
Proof.
  destruct (natural_completion_four_records 7 1 1 eq_refl eq_refl eq_refl)
    as (_ & _ & H & _).
  apply (H (alone 0 (7 + 7 * 60 + 8 + (7 + 7 * 60 + 6))) after_full_chain_1_1
           (mkFrame Returned 60 descanso (Some 120%nat))).
  - apply natural_alone.
  - exact run_full_chain_1_1.
  - reflexivity.
  - reflexivity.
Defined.

(** The events of an uncancelled chain keep the invariant of its
    control. *)
Lemma flow_step (e : event) (w w' : world) (f : frame) :
  natural e -> threads w = [f] -> flow f w -> step e w = Some w' ->
  exists f', threads w' = [f'] /\ flow f' w'.
Proof.
  intros He Hth [Hst Hr [Hc Hx] Hret Hch] Hs.
  destruct w as [t lk ths ss h n out]; simpl in *; subst ths.
  destruct f as [l d k e0]; simpl in *.
  destruct t as [tk ws bs tt r p rem sty st sid]; simpl in *. subst h.
  destruct e; simpl in He; try contradiction.
  - assert (tid = 0%nat) by (eapply only_thread_0; [|exact Hs]; reflexivity).
    subst tid. unfold step, _run_timer_step in Hs; simpl in Hs.
    destruct l, k; simpl in *; try discriminate Hs; try discriminate Hc;
      try congruence;
      unfold _save_session, get_connection, execute_insert in Hs; simpl in Hs;
      use_premises; subst; try discriminate;
      break_step Hs; try congruence; injection Hs as <-;
      (eexists; split; [reflexivity|]; split; simpl;
       try first [ reflexivity | discriminate | congruence
                 | split; first [ reflexivity | discriminate ]
                 | intros; first [ reflexivity | discriminate | congruence ] ]).
  - unfold step, locked_call, pause in Hs; simpl in Hs.
    break_step Hs; injection Hs as <-;
      (eexists; split; [reflexivity|]; split; simpl; auto).
  - unfold step, locked_call, resume in Hs; simpl in Hs.
    break_step Hs; injection Hs as <-;
      (eexists; split; [reflexivity|]; split; simpl; auto).
  - injection Hs as <-. eexists; split; [reflexivity|]; split; simpl; auto.
Qed.

(** After an uncancelled chain has returned, the timer is still marked as
    running. *)
Lemma natural_completion_leaves_running
    (task work_min break_min : Z) (s : list event) (w : world) (f : frame) :
  Forall natural s ->
  run (Call_start :: s) (boot task work_min break_min) = Some w ->
  threads w = [f] -> at_ f = Returned ->
  is_running w = true.
Proof.
  intros Hs Hrun Hth Hret.
  change (run s (snd (start (boot task work_min break_min))) = Some w) in Hrun.
  assert (H : exists f', threads w = [f'] /\ flow f' w).
  { revert Hrun.
    apply (run_invariant natural (fun w => exists f, threads w = [f] /\ flow f w));
      [|assumption|].
    - intros e wa wb He (fa & Hfa & Hca) Hst.
      exact (flow_step e wa wb fa He Hfa Hca Hst).
    - eexists. split; [reflexivity|]. split; simpl; try discriminate; auto. }
  destruct H as (f' & Hth' & [_ Hr _ Hk _]).
  assert (f' = f) by congruence. subst f'.
  apply Hr. rewrite Hret, (Hk Hret). reflexivity.
Qed.

(** ** Failures of the store *)

(** Every row the timer writes has an [end_time]: [_save_session] replaces
    a missing one by the time of the write. *)
Lemma save_session_end_time (duration_minutes : Z) (kind : SessionType)
    (end_time : option timestamp) (w : world) :
  Forall (fun r => row_end_time r <> None) (sessions w) ->
  Forall (fun r => row_end_time r <> None)
    (sessions (snd (_save_session duration_minutes kind end_time w))).
Proof.
  intros H. unfold _save_session, get_connection, execute_insert.
  destruct (store w); simpl; try assumption.
  destruct (_start_time (self w)); simpl; try assumption.
  destruct (sqlite_integer _ && sqlite_integer _); simpl; try assumption.
  apply Forall_app. split; [assumption|]. constructor; [|constructor].
  simpl. discriminate.
Qed.

Lemma rows_have_end_time (s : list event) (w0 w : world) :
  run s w0 = Some w ->
  Forall (fun r => row_end_time r <> None) (sessions w0) ->
  Forall (fun r => row_end_time r <> None) (sessions w).
Proof.
  intros Hrun H0. revert Hrun.
  apply (run_invariant (fun _ => True)
           (fun w => Forall (fun r => row_end_time r <> None) (sessions w)));
    [|apply Forall_forall; trivial|assumption].
  clear. intros e w w' _ H Hs. destruct e; simpl in Hs.
  - unfold _run_timer_step in Hs.
    destruct (threads w !! tid) as [f|]; [|discriminate].
    destruct (at_ f); try discriminate Hs;
      try (break_step Hs; injection Hs as <-; exact H).
    + pose proof (save_session_end_time (duration f / 60) (session_type f)
                    None w H) as H'.
      destruct (_save_session _ _ _ w) as [[] w1]; injection Hs as <-; exact H'.
    + pose proof (save_session_end_time (duration f / 60) (session_type f)
                    (end_time f) w H) as H'.
      destruct (_save_session _ _ _ w) as [[] w1]; injection Hs as <-; exact H'.
  - injection Hs as <-. unfold start. destruct (negb _); exact H.
  - unfold locked_call, pause in Hs. break_step Hs; injection Hs as <-; exact H.
  - unfold locked_call, resume in Hs. break_step Hs; injection Hs as <-; exact H.
  - unfold locked_call, cancel in Hs. break_step Hs; injection Hs as <-; exact H.
  - injection Hs as <-. exact H.
  - injection Hs as <-. exact H.
Qed.

(** C5 as stated fails: an error of [get_connection()] is raised outside
    the [try] of [_save_session].  The thread of the timer for task 7 ends
    at line 74 with the exception; the handler of [_save_session] prints
    nothing; the countdown never starts, with [_remaining_time] left at 60
    and [_is_running] left true. *)
Lemma connect_failure_ends_engine :
  (exists w,
      run (Call_start :: alone 0 6 ++ [Store ConnectFails; Engine 0]) (boot 7 1 1)
        = Some w /\
      threads w = [mkFrame Raised 60 trabajo None] /\
      _run_timer_step 0 w = None /\
      stdout w = [msg_iniciando trabajo 7 1] /\
      _remaining_time (self w) = 60 /\
      is_running w = true) /\
  ~ save_failure_contained ConnectFails.
Proof.
  split.
  - eexists. split; [vm_compute; reflexivity|]. repeat split.
  - intros H.
    specialize (H (mkWorld (PomodoroTimer_init 7 1 1) None
                     [mkFrame L74 60 trabajo None] [] ConnectFails 0%nat [])
                  0%nat (mkFrame L74 60 trabajo None) eq_refl eq_refl
                  (or_introl eq_refl)).
    vm_compute in H. discriminate H.
Qed.

(** C5, amended: an error raised by the INSERT or the commit is caught and
    printed, the timer object is unchanged, and the engine goes on: to the
    loop test of line 76 after the start record, to line 100 after the
    completion record.  For a timer whose start record cannot be saved the
    engine stands at line 76 with the error printed and no row written, and
    the countdown then runs from [work_min * 60] down to 0 with the timer
    still running. *)
Theorem write_failure_is_contained :
  save_failure_contained WriteFails /\
  (forall task work_min break_min : Z,
      0 <= work_min ->
      let D := work_min * 60 in
      let t rem := mkTimer task D (break_min * 60) (Some 0%nat) true false rem
                     trabajo (Some 0%nat) None in
      let w := mkWorld (t D) None [mkFrame L76 D trabajo None] [] WriteFails 0%nat
                 [msg_iniciando trabajo task (D / 60); msg_error_al_guardar] in
      run (Call_start :: Store WriteFails :: alone 0 7)
        (boot task work_min break_min) = Some w /\
      exists clock out,
        run (alone 0 (7 * Z.to_nat D)) w =
        Some (mkWorld (t 0) None [mkFrame L76 D trabajo None] [] WriteFails
                clock out)).
Proof.
  split.
  - intros w tid f Hf Hst Hat.
    unfold _run_timer_step, _save_session, get_connection, execute_insert.
    rewrite Hf, Hst. destruct Hat as [-> | ->]; reflexivity.
  - intros task work_min break_min Hpos D t w. split; [reflexivity|].
    destruct (countdown task D (break_min * 60) (Some 0%nat) D trabajo WriteFails
                (Z.to_nat D) 0%nat None [] 0%nat
                [msg_iniciando trabajo task (D / 60); msg_error_al_guardar]
                None) as (clock & out & Hcount).
    rewrite Z2Nat.id in Hcount by (subst D; lia).
    exists clock, out. exact Hcount.
Qed.

(** The timer for task 7 over a store that refuses the INSERT. *)
Lemma write_failure_is_contained_witness :
  _run_timer_step 0 (mkWorld (PomodoroTimer_init 7 1 1) None
                   [mkFrame L74 60 trabajo None] [] WriteFails 0%nat []) =
  Some (mkWorld (PomodoroTimer_init 7 1 1) None
          [mkFrame L76 60 trabajo None] [] WriteFails 0%nat [msg_error_al_guardar]) /\
  exists clock out,
    run (alone 0 (7 * Z.to_nat (1 * 60)))
      (mkWorld (mkTimer 7 (1 * 60) (1 * 60) (Some 0%nat) true false (1 * 60) trabajo
                  (Some 0%nat) None)
         None [mkFrame L76 (1 * 60) trabajo None] [] WriteFails 0%nat
         [msg_iniciando trabajo 7 (1 * 60 / 60); msg_error_al_guardar]) =
    Some (mkWorld (mkTimer 7 (1 * 60) (1 * 60) (Some 0%nat) true false 0 trabajo
                     (Some 0%nat) None)
            None [mkFrame L76 (1 * 60) trabajo None] [] WriteFails clock out).
Proof.
  destruct write_failure_is_contained as [Hstep Hrun]. split.
  - apply (Hstep (mkWorld (PomodoroTimer_init 7 1 1) None
                    [mkFrame L74 60 trabajo None] [] WriteFails 0%nat [])
             0%nat (mkFrame L74 60 trabajo None)).
    + reflexivity.
    + reflexivity.
    + left. reflexivity.
  - apply (Hrun 7 1 1). lia.
Defined.
